(** * RICE calculator: the scorer, the project store and the add / clear actions

    A shallow embedding of [rice_calculator.py].  Python floats are the
    binary64 numbers of [PrimFloat]; Python ints are [Z]; exceptions are
    values of [exn] carried by [result].  The functions that talk to the
    spreadsheet service are computations on a [world]: the configuration,
    the documents of the service, the outcomes of the coming requests, the
    log of the requests sent, the messages shown and the session state.

    The file has the embedding first ([calculate_rice_score],
    [init_gsheets], [get_worksheet], [load_user_projects],
    [save_user_projects], [main]) and the properties after it. *)

From Stdlib Require Import ZArith Floats Lia List Bool.
From Stdlib Require Import DecimalString DecimalZ DecimalPos.
From stdpp Require Import base gmap strings list.

Local Open Scope Z_scope.

(** ** Exceptions and results *)

Inductive exn : Type :=
  | ZeroDivisionError
  | OverflowError
  | KeyError (key : string)
  | WorksheetNotFound
  | SpreadsheetNotFound
  | ValueError
  | APIError.

Inductive result (A : Type) : Type :=
  | Ok (a : A)
  | Raise (e : exn).
Arguments Ok {A} a.
Arguments Raise {A} e.

Definition rbind {A B} (r : result A) (k : A -> result B) : result B :=
  match r with
  | Ok a => k a
  | Raise e => Raise e
  end.

(** ** Python numbers *)

Inductive num : Type :=
  | PyInt (z : Z)
  | PyFloat (f : float).

(** [float(z)] for a Python int: the nearest binary64 number, ties to even;
    [OverflowError] when that is not finite. *)
Definition int_to_float (z : Z) : result float :=
  match binary_normalize prec emax z 0 false with
  | S754_infinity _ => Raise OverflowError
  | sf => Ok (SF2Prim sf)
  end.

(** [a / b] on two Python ints: the correctly rounded quotient. *)
Definition int_true_divide (a b : Z) : result float :=
  if b =? 0 then Raise ZeroDivisionError
  else
    let negate := xorb (a <? 0) (b <? 0) in
    if a =? 0 then Ok (if negate then neg_zero else zero)
    else
      let '(q, e, l) := SFdiv_core_binary prec emax (Z.abs a) 0 (Z.abs b) 0 in
      match binary_round_aux prec emax negate q e l with
      | S754_infinity _ => Raise OverflowError
      | sf => Ok (SF2Prim sf)
      end.

Definition as_float (x : num) : result float :=
  match x with
  | PyInt z => int_to_float z
  | PyFloat f => Ok f
  end.

(** [x * y] *)
Definition py_mul (x y : num) : result num :=
  match x, y with
  | PyInt a, PyInt b => Ok (PyInt (a * b))
  | _, _ =>
      rbind (as_float x) (fun fx =>
      rbind (as_float y) (fun fy =>
      Ok (PyFloat (PrimFloat.mul fx fy))))
  end.

(** [x / y] *)
Definition py_truediv (x y : num) : result num :=
  match x, y with
  | PyInt a, PyInt b =>
      rbind (int_true_divide a b) (fun f => Ok (PyFloat f))
  | _, _ =>
      rbind (as_float x) (fun fx =>
      rbind (as_float y) (fun fy =>
      if PrimFloat.eqb fy zero then Raise ZeroDivisionError
      else Ok (PyFloat (PrimFloat.div fx fy))))
  end.

(** [x == 0] *)
Definition py_eq_zero (x : num) : bool :=
  match x with
  | PyInt z => z =? 0
  | PyFloat f => PrimFloat.eqb f zero
  end.

(** ** The scorer *)

Definition calculate_rice_score (reach impact confidence effort : num)
  : result num :=
  if py_eq_zero effort then Ok (PyInt 0)
  else
    rbind (py_mul reach impact) (fun ri =>
    rbind (py_mul ri confidence) (fun ric =>
    py_truediv ric effort)).

(** ** [round(x, 2)] *)

(** The integer nearest to [a / b] for [0 <= a] and [0 < b], ties to even. *)
Definition div_half_even (a b : Z) : Z :=
  let q := a / b in
  let r := a mod b in
  match 2 * r ?= b with
  | Lt => q
  | Gt => q + 1
  | Eq => if Z.even q then q else q + 1
  end.

(** Hundredths nearest to the exact value [m * 2 ^ e]. *)
Definition hundredths (m : positive) (e : Z) : Z :=
  if 0 <=? e then Z.pos m * 2 ^ e * 100
  else div_half_even (Z.pos m * 100) (2 ^ (- e)).

(** [round(f, 2)] on a float: the exact value of [f] is rounded to two
    decimals, ties to even, and the decimal is read back as the nearest
    float; nan, the infinities and the zeros round to themselves. *)
Definition float_round2 (f : float) : result float :=
  match Prim2SF f with
  | S754_finite s m e =>
      let n := hundredths m e in
      rbind (int_true_divide n 100) (fun r =>
      Ok (if s then PrimFloat.opp r else r))
  | _ => Ok f
  end.

(** [round(x, 2)]; an int rounds to itself. *)
Definition py_round2 (x : num) : result num :=
  match x with
  | PyInt z => Ok (PyInt z)
  | PyFloat f => rbind (float_round2 f) (fun r => Ok (PyFloat r))
  end.

(** The five values of the impact selector. *)
Definition impact_options : list num :=
  [PyFloat 0.25; PyFloat 0.5; PyInt 1; PyInt 2; PyInt 3].

(** Total reading of a number as a float, for stating results. *)
Definition Z_to_float (z : Z) : float :=
  SF2Prim (binary_normalize prec emax z 0 false).

Definition num_float (x : num) : float :=
  match x with
  | PyInt z => Z_to_float z
  | PyFloat f => f
  end.

(** The values of the reach slider. *)
Definition reach_range : list Z :=
  Eval vm_compute in map Z.of_nat (seq 0 101).

(** ** Cells, records and the spreadsheet service

    A worksheet is the list of its rows, top row first; a row is the list
    of its cells.  A record, the Python dict that [get_all_records] returns
    and that the add action builds, is a finite map from column names to
    cell values. *)

Inductive value : Type :=
  | VStr (s : string)
  | VNum (n : num).

(** How a document is found: by its URL or by its name. *)
Inductive locator : Type :=
  | ByUrl (url : string)
  | ByName (name : string).

#[global] Instance locator_eq_dec : EqDecision locator.
Proof. solve_decision. Defined.

#[global] Instance locator_countable : Countable locator.
Proof.
  refine (inj_countable'
            (fun l => match l with ByUrl u => inl u | ByName n => inr n end)
            (fun x => match x with inl u => ByUrl u | inr n => ByName n end) _).
  intros []; reflexivity.
Defined.

(** A worksheet object: the document it lives in and its title. *)
Record handle : Type := Handle { h_doc : locator; h_title : string }.

(** What [st.secrets] holds. *)
Inductive service_account_info : Type :=
  | WellFormedInfo
  | MalformedInfo.

Record secrets : Type := Secrets {
  gcp_service_account : option service_account_info;
  spreadsheet_url : option string
}.

Inductive credentials : Type := ServiceCredentials.

Inductive client : Type := GspreadClient.

(** Requests sent to the spreadsheet service. *)
Inductive call : Type :=
  | OpenByUrl (url : string)
  | OpenByName (name : string)
  | GetWorksheet (title : string)
  | AddWorksheet (title : string)
  | AppendRow (title : string) (values : list value)
  | Clear (title : string)
  | GetAllRecords (title : string).

(** Messages shown to the user. *)
Inductive message : Type :=
  | ErrAccessingSheets (e : exn)
  | ErrSaving (e : exn)
  | WarnNotConfigured
  | SuccessConnected
  | SuccessAdded (name : string)
  | ErrFailedToSave
  | ErrFailedToClear
  | ErrEnterName
  | InfoAddFirst.

(** The state a script run acts on.  [faults] lists the outcomes of the
    coming requests to the service, [true] for a request that fails;
    once the list is used up every request succeeds. *)
Record world : Type := World {
  config : secrets;
  drive : gmap locator (gmap string (list (list value)));
  faults : list bool;
  calls : list call;
  messages : list message;
  session_state : gmap string (list (gmap string value))
}.

Definition set_drive (d : gmap locator (gmap string (list (list value))))
  (w : world) : world :=
  World (config w) d (faults w) (calls w) (messages w) (session_state w).

Definition set_faults (fs : list bool) (w : world) : world :=
  World (config w) (drive w) fs (calls w) (messages w) (session_state w).

Definition log_call (c : call) (w : world) : world :=
  World (config w) (drive w) (faults w) (calls w ++ [c]) (messages w)
        (session_state w).

Definition post_message (m : message) (w : world) : world :=
  World (config w) (drive w) (faults w) (calls w) (messages w ++ [m])
        (session_state w).

Definition set_session (k : string) (v : list (gmap string value))
  (w : world) : world :=
  World (config w) (drive w) (faults w) (calls w) (messages w)
        (<[k := v]> (session_state w)).

(** ** Computations that act on the world and may raise *)

Definition Api (A : Type) : Type := world -> result A * world.

Definition ret {A} (a : A) : Api A := fun w => (Ok a, w).

Definition raise {A} (e : exn) : Api A := fun w => (Raise e, w).

Definition bind {A B} (m : Api A) (k : A -> Api B) : Api B :=
  fun w =>
    match m w with
    | (Ok a, w') => k a w'
    | (Raise e, w') => (Raise e, w')
    end.

(** [try: m except ...: h] *)
Definition try_except {A} (m : Api A) (h : exn -> Api A) : Api A :=
  fun w =>
    match m w with
    | (Ok a, w') => (Ok a, w')
    | (Raise e, w') => h e w'
    end.

Definition lift {A} (r : result A) : Api A := fun w => (r, w).

(** [st.error], [st.warning], [st.success], [st.info] *)
Definition st_message (m : message) : Api unit :=
  fun w => (Ok tt, post_message m w).

Declare Scope api_scope.
Delimit Scope api_scope with api.
Notation "x <- m ;; k" := (bind m (fun x => k))
  (at level 100, m at next level, right associativity) : api_scope.
Notation "m ;;; k" := (bind m (fun _ => k))
  (at level 100, right associativity) : api_scope.
Local Open Scope api_scope.

(** [for x in xs: body x] *)
Fixpoint for_each {A} (xs : list A) (body : A -> Api unit) : Api unit :=
  match xs with
  | [] => ret tt
  | x :: rest => body x ;;; for_each rest body
  end.

(** ** The service

    Every request is logged and then succeeds or fails as [faults] says. *)

Definition request (c : call) : Api unit :=
  fun w =>
    let w' := log_call c w in
    match faults w' with
    | true :: fs => (Raise APIError, set_faults fs w')
    | false :: fs => (Ok tt, set_faults fs w')
    | [] => (Ok tt, w')
    end.

(** [gc.open_by_url(url)] *)
Definition open_by_url (gc : client) (url : string) : Api locator :=
  request (OpenByUrl url) ;;;
  fun w => match drive w !! ByUrl url with
           | Some _ => (Ok (ByUrl url), w)
           | None => (Raise SpreadsheetNotFound, w)
           end.

(** [gc.open(name)] *)
Definition open_by_name (gc : client) (name : string) : Api locator :=
  request (OpenByName name) ;;;
  fun w => match drive w !! ByName name with
           | Some _ => (Ok (ByName name), w)
           | None => (Raise SpreadsheetNotFound, w)
           end.

(** [sh.worksheet(title)] *)
Definition worksheet (sh : locator) (title : string) : Api handle :=
  request (GetWorksheet title) ;;;
  fun w => match drive w !! sh with
           | Some doc =>
               match doc !! title with
               | Some _ => (Ok (Handle sh title), w)
               | None => (Raise WorksheetNotFound, w)
               end
           | None => (Raise APIError, w)
           end.

(** [sh.add_worksheet(title=..., rows=1000, cols=10)]: a new, empty sheet. *)
Definition add_worksheet (sh : locator) (title : string) : Api handle :=
  request (AddWorksheet title) ;;;
  fun w => match drive w !! sh with
           | Some doc =>
               match doc !! title with
               | Some _ => (Raise APIError, w)
               | None =>
                   (Ok (Handle sh title),
                    set_drive (<[sh := <[title := []]> doc]> (drive w)) w)
               end
           | None => (Raise APIError, w)
           end.

(** Replace the rows of the sheet behind [ws] by [f] of them. *)
Definition update_sheet (ws : handle)
  (f : list (list value) -> list (list value)) : Api unit :=
  fun w => match drive w !! h_doc ws with
           | Some doc =>
               match doc !! h_title ws with
               | Some rows =>
                   (Ok tt,
                    set_drive (<[h_doc ws := <[h_title ws := f rows]> doc]>
                                 (drive w)) w)
               | None => (Raise APIError, w)
               end
           | None => (Raise APIError, w)
           end.

(** [worksheet.append_row(values)]: the row goes below the last one. *)
Definition append_row (ws : handle) (values : list value) : Api unit :=
  request (AppendRow (h_title ws) values) ;;;
  update_sheet ws (fun rows => rows ++ [values]).

(** [worksheet.clear()] *)
Definition clear (ws : handle) : Api unit :=
  request (Clear (h_title ws)) ;;;
  update_sheet ws (fun _ => []).

(** How cells come back from the service: [cell_text] is the text the
    service returns for a cell, [numericise] what [get_all_records] makes
    of such a text (a number when it reads as one, else the text). *)
Class SheetFormat : Type := {
  cell_text : value -> string;
  numericise : string -> value
}.

(** The texts of a sheet as [get_all_records] takes them: rows are padded
    with empty texts to a common width. *)
Definition fill_gaps (texts : list (list string)) : list (list string) :=
  let width := foldr Nat.max 0%nat (map length texts) in
  map (fun r => r ++ replicate (width - length r) EmptyString) texts.

(** [dict(zip(keys, values))]: a later pair overrides an earlier one. *)
Definition dict_of_pairs (kvs : list (string * value)) : gmap string value :=
  foldl (fun d kv => <[kv.1 := kv.2]> d) ∅ kvs.

(** The records of a sheet: the first row gives the keys, every further
    row one record. *)
Definition records_of_sheet `{F : SheetFormat} (rows : list (list value))
  : list (gmap string value) :=
  match fill_gaps (map (map cell_text) rows) with
  | [] => []
  | keys :: body =>
      map (fun r => dict_of_pairs (zip keys (map numericise r))) body
  end.

(** [worksheet.get_all_records()] *)
Definition get_all_records `{F : SheetFormat} (ws : handle)
  : Api (list (gmap string value)) :=
  request (GetAllRecords (h_title ws)) ;;;
  fun w => match drive w !! h_doc ws with
           | Some doc =>
               match doc !! h_title ws with
               | Some rows => (Ok (records_of_sheet rows), w)
               | None => (Raise APIError, w)
               end
           | None => (Raise APIError, w)
           end.

(** ** The project store *)

Definition HEADER : list string :=
  ["Project"; "Reach (%)"; "Impact"; "Confidence (%)"; "Effort (months)";
   "RICE Score"]%string.

Definition header_row : list value := map VStr HEADER.

(** [st.secrets["gcp_service_account"]] *)
Definition secrets_service_account : Api service_account_info :=
  fun w => match gcp_service_account (config w) with
           | Some info => (Ok info, w)
           | None => (Raise (KeyError "gcp_service_account"), w)
           end.

(** [Credentials.from_service_account_info(credentials_info, scopes=...)] *)
Definition from_service_account_info (info : service_account_info)
  : Api credentials :=
  match info with
  | WellFormedInfo => ret ServiceCredentials
  | MalformedInfo => raise ValueError
  end.

(** [gspread.authorize(credentials)] *)
Definition authorize (c : credentials) : Api client := ret GspreadClient.

(** The result is cached for the process; the configuration does not
    change, so every call returns the same. *)
Definition init_gsheets : Api (option client) :=
  try_except
    (credentials_info <- secrets_service_account ;;
     credentials <- from_service_account_info credentials_info ;;
     gc <- authorize credentials ;;
     ret (Some gc))
    (fun _ => ret None).

Definition get_worksheet (gc : option client) (username : string)
  : Api (option handle) :=
  match gc with
  | None => ret None
  | Some gc =>
      try_except
        (fun w =>
           (let spreadsheet_url := default EmptyString (spreadsheet_url (config w)) in
            sh <- (if String.eqb spreadsheet_url EmptyString
                   then open_by_name gc "RICE Calculator Data"
                   else open_by_url gc spreadsheet_url) ;;
            ws <- try_except (worksheet sh username)
                    (fun e =>
                       match e with
                       | WorksheetNotFound =>
                           ws <- add_worksheet sh username ;;
                           append_row ws header_row ;;;
                           ret ws
                       | _ => raise e
                       end) ;;
            ret (Some ws)) w)
        (fun e => st_message (ErrAccessingSheets e) ;;; ret None)
  end.

Definition load_user_projects `{F : SheetFormat} (username : string)
  : Api (list (gmap string value)) :=
  gc <- init_gsheets ;;
  ws <- get_worksheet gc username ;;
  match ws with
  | None => ret []
  | Some ws => try_except (get_all_records ws) (fun _ => ret [])
  end.

(** [project[key]] *)
Definition getitem (project : gmap string value) (key : string)
  : result value :=
  match project !! key with
  | Some v => Ok v
  | None => Raise (KeyError key)
  end.

(** The list of the six cells of a project, read in column order. *)
Fixpoint project_cells (project : gmap string value) (keys : list string)
  : result (list value) :=
  match keys with
  | [] => Ok []
  | k :: rest =>
      rbind (getitem project k) (fun v =>
      rbind (project_cells project rest) (fun vs => Ok (v :: vs)))
  end.

(** The body of the [try] of [save_user_projects]. *)
Definition write_projects (ws : handle) (projects : list (gmap string value))
  : Api bool :=
  clear ws ;;;
  append_row ws header_row ;;;
  (match projects with
   | [] => ret tt
   | _ =>
       for_each projects (fun project =>
         cells <- lift (project_cells project HEADER) ;;
         append_row ws cells)
   end) ;;;
  ret true.

Definition save_user_projects (username : string)
  (projects : list (gmap string value)) : Api bool :=
  gc <- init_gsheets ;;
  ws <- get_worksheet gc username ;;
  match ws with
  | None => st_message WarnNotConfigured ;;; ret true
  | Some ws =>
      try_except (write_projects ws projects)
        (fun e => st_message (ErrSaving e) ;;; ret false)
  end.

(** ** The script *)

(** The state of the widgets at one run of the script. *)
Record widgets : Type := Widgets {
  selected_user : string;
  project_name : string;
  reach : Z;
  impact : num;
  confidence : Z;
  effort : float;
  add_clicked : bool;
  clear_clicked : bool
}.

(** [st.rerun()] stops the run; the script is then run again. *)
Inductive outcome : Type :=
  | Finished
  | Rerun.

(** The dict the add action builds, given the rounded score. *)
Definition new_project (ui : widgets) (rounded : num) : gmap string value :=
  dict_of_pairs
    [("Project", VStr (project_name ui));
     ("Reach (%)", VNum (PyInt (reach ui)));
     ("Impact", VNum (impact ui));
     ("Confidence (%)", VNum (PyInt (confidence ui)));
     ("Effort (months)", VNum (PyFloat (effort ui)));
     ("RICE Score", VNum rounded)]%string.

Definition session_key (user : string) : string :=
  String.append "projects_" user.

(** The sidebar: the add action. *)
Definition add_action `{F : SheetFormat} (ui : widgets) : Api outcome :=
  if add_clicked ui then
    if negb (String.eqb (project_name ui) EmptyString) then
      confidence_decimal <- lift (py_truediv (PyInt (confidence ui)) (PyInt 100)) ;;
      rice_score <- lift (calculate_rice_score (PyInt (reach ui)) (impact ui)
                            confidence_decimal (PyFloat (effort ui))) ;;
      user_projects <- load_user_projects (selected_user ui) ;;
      rounded <- lift (py_round2 rice_score) ;;
      let project := new_project ui rounded in
      let user_projects := user_projects ++ [project] in
      saved <- save_user_projects (selected_user ui) user_projects ;;
      if saved then
        st_message (SuccessAdded (project_name ui)) ;;;
        (fun w => (Ok tt, set_session (session_key (selected_user ui))
                            user_projects w)) ;;;
        ret Rerun
      else
        st_message ErrFailedToSave ;;; ret Finished
    else
      st_message ErrEnterName ;;; ret Finished
  else ret Finished.

(** What drawing the ranked table, the charts and the metrics does with the
    loaded records: it returns or it raises; the store is not involved. *)
Class Display : Type := {
  draw : list (gmap string value) -> result unit
}.

(** The main area: the load of every run, the drawing and the clear
    action. *)
Definition main_area `{F : SheetFormat} `{D : Display} (ui : widgets)
  : Api outcome :=
  user_projects <- load_user_projects (selected_user ui) ;;
  (fun w => (Ok tt, set_session (session_key (selected_user ui))
                      user_projects w)) ;;;
  match user_projects with
  | _ :: _ =>
      lift (draw user_projects) ;;;
      if clear_clicked ui then
        saved <- save_user_projects (selected_user ui) [] ;;
        if saved then
          (fun w => (Ok tt, set_session (session_key (selected_user ui)) [] w)) ;;;
          ret Rerun
        else
          st_message ErrFailedToClear ;;; ret Finished
      else ret Finished
  | [] => st_message InfoAddFirst ;;; ret Finished
  end.

Definition main `{F : SheetFormat} `{D : Display} (ui : widgets)
  : Api outcome :=
  gc <- init_gsheets ;;
  st_message (match gc with
              | Some _ => SuccessConnected
              | None => WarnNotConfigured
              end) ;;;
  o <- add_action ui ;;
  match o with
  | Rerun => ret Rerun
  | Finished => main_area ui
  end.

(** One interaction: the script runs, and runs once more, with the buttons
    released, when it asked for a rerun. *)
Definition release (ui : widgets) : widgets :=
  Widgets (selected_user ui) (project_name ui) (reach ui) (impact ui)
          (confidence ui) (effort ui) false false.

Definition interaction `{F : SheetFormat} `{D : Display} (ui : widgets)
  : Api outcome :=
  o <- main ui ;;
  match o with
  | Rerun => main (release ui)
  | Finished => ret Finished
  end.

(** A new process: the session state is gone, the store is what it was. *)
Definition restart (w : world) : world :=
  World (config w) (drive w) (faults w) (calls w) [] ∅.

(** ** Vocabulary of the statements *)

(** The document the configuration points to. *)
Definition target (w : world) : locator :=
  let url := default EmptyString (spreadsheet_url (config w)) in
  if String.eqb url EmptyString then ByName "RICE Calculator Data"
  else ByUrl url.

(** The rows of a user's table, when the table exists. *)
Definition user_table (w : world) (username : string)
  : option (list (list value)) :=
  doc ← drive w !! target w; doc !! username.

(** The store is reachable: credentials are configured and the target
    document exists. *)
Definition reachable (w : world) : Prop :=
  gcp_service_account (config w) = Some WellFormedInfo
  /\ is_Some (drive w !! target w).

(** A record with the six fields of a project. *)
Definition has_fields (project : gmap string value) : Prop :=
  forall k, k ∈ HEADER -> is_Some (project !! k).

Definition is_project (project : gmap string value) : Prop :=
  forall k, is_Some (project !! k) <-> k ∈ HEADER.

(** The row [save_user_projects] writes for a project. *)
Definition row_of (project : gmap string value) : list value :=
  map (fun k => default (VStr EmptyString) (project !! k)) HEADER.

(** The request that opens the target document. *)
Definition open_call (w : world) : call :=
  let url := default EmptyString (spreadsheet_url (config w)) in
  if String.eqb url EmptyString then OpenByName "RICE Calculator Data"
  else OpenByUrl url.

(** The drive of [w] with the rows of a user's table replaced. *)
Definition put_table (w : world) (username : string)
  (rows : list (list value)) : gmap locator (gmap string (list (list value))) :=
  match drive w !! target w with
  | Some doc => <[target w := <[username := rows]> doc]> (drive w)
  | None => drive w
  end.

(** The world after requests [cs] that all succeeded and left the drive
    as [d]. *)
Definition after (w : world)
  (d : gmap locator (gmap string (list (list value)))) (cs : list call)
  : world :=
  World (config w) d (faults w) (calls w ++ cs) (messages w)
        (session_state w).





(** The decimal numeral of an int. *)
Definition decimal (z : Z) : string := NilZero.string_of_int (Z.to_int z).



(** The requests [get_worksheet] sends on a reachable store: the user's
    sheet is created, and its header written, when it does not exist yet. *)
Definition resolve_calls (w : world) (username : string) : list call :=
  open_call w :: GetWorksheet username ::
  match user_table w username with
  | Some _ => []
  | None => [AddWorksheet username; AppendRow username header_row]
  end.


(** The inputs the widgets allow. *)
Definition valid_inputs (ui : widgets) : Prop :=
  0 <= reach ui <= 100
  /\ impact ui ∈ impact_options
  /\ 0 <= confidence ui <= 100
  /\ PrimFloat.leb 0x1.999999999999ap-4 (effort ui) = true
  /\ PrimFloat.leb (effort ui) 100 = true.

(** (reach * impact * confidence / 100) / effort, in float arithmetic. *)
Definition rice_formula (ui : widgets) : float :=
  PrimFloat.div
    (PrimFloat.mul
       (PrimFloat.mul (Z_to_float (reach ui)) (num_float (impact ui)))
       (PrimFloat.div (Z_to_float (confidence ui)) 100))
    (effort ui).


(** ** Concrete data for the examples *)

(** A format for the examples: the text of an int cell is its decimal
    numeral, and a text is made an int when it is such a numeral. *)
Definition plain_text (v : value) : string :=
  match v with
  | VStr s => s
  | VNum (PyInt z) => decimal z
  | VNum (PyFloat f) =>
      match Prim2SF f with
      | S754_finite s m e =>
          String.append (NilZero.string_of_int (Z.to_int (if s then Z.neg m else Z.pos m)))
            (String.append "p" (NilZero.string_of_int (Z.to_int e)))
      | S754_zero s => if s then "-0.0" else "0.0"
      | S754_infinity s => if s then "-inf" else "inf"
      | S754_nan => "nan"
      end
  end%string.

Definition plain_numericise (s : string) : value :=
  match NilZero.int_of_string s with
  | Some d => VNum (PyInt (Z.of_int d))
  | None => VStr s
  end.

Definition plain_format : SheetFormat :=
  {| cell_text := plain_text; numericise := plain_numericise |}.

(** A drawing that succeeds. *)
Definition plain_display : Display := {| draw := fun _ => Ok tt |}.

(** One of the example projects of the script. *)
Definition dark_mode : gmap string value :=
  dict_of_pairs
    [("Project", VStr "Dark Mode");
     ("Reach (%)", VNum (PyInt 40));
     ("Impact", VNum (PyInt 1));
     ("Confidence (%)", VNum (PyInt 90));
     ("Effort (months)", VNum (PyInt 1));
     ("RICE Score", VNum (PyInt 36))]%string.

(** The same project under a name that is a numeral. *)
Definition project_2024 : gmap string value :=
  dict_of_pairs
    [("Project", VStr "2024");
     ("Reach (%)", VNum (PyInt 40));
     ("Impact", VNum (PyInt 1));
     ("Confidence (%)", VNum (PyInt 90));
     ("Effort (months)", VNum (PyInt 1));
     ("RICE Score", VNum (PyInt 36))]%string.

(** A store with credentials and an empty target document. *)
Definition fresh_store : world :=
  World (Secrets (Some WellFormedInfo) None)
        {[ ByName "RICE Calculator Data" := ∅ ]} [] [] [] ∅.

(** No credentials: the store is unavailable. *)
Definition no_store : world :=
  World (Secrets None None) ∅ [] [] [] ∅.

(** The store fails at the third request (the first write of a save when
    the sheet exists). *)
Definition failing_store : world :=
  World (Secrets (Some WellFormedInfo) None)
        {[ ByName "RICE Calculator Data" := {[ "Rolf"%string := [header_row] ]} ]}
        [false; false; true] [] [] ∅.

(** The worked example of the script: reach 80, impact 2, confidence 90,
    effort 3. *)
Definition example_ui : widgets :=
  Widgets "Rolf" "Mobile App Feature" 80 (PyInt 2) 90 3 true false.

(** ** Vocabulary for runs in which requests fail *)

(** The rows of the sheet [t] of the document [l], when it exists. *)
Definition sheet (w : world) (l : locator) (t : string)
  : option (list (list value)) :=
  doc ← drive w !! l; doc !! t.

(** The world after requests [cs], with the drive [d] and the outcomes [fs]
    of the requests still to come. *)
Definition next (w : world)
  (d : gmap locator (gmap string (list (list value)))) (cs : list call)
  (fs : list bool) : world :=
  World (config w) d fs (calls w ++ cs) (messages w) (session_state w).

(** The rows of a table when a save is interrupted at its [k]-th write
    request (counted from 0): the clearing, the header, then one request a
    project. *)
Definition written_before (k : nat) (old : list (list value))
  (projects : list (gmap string value)) : list (list value) :=
  match k with
  | O => old
  | S O => []
  | S (S i) => header_row :: map row_of (take i projects)
  end.

(** The first column of the header a record has no entry for. *)
Definition missing_field (project : gmap string value) : option string :=
  List.find (fun k => bool_decide (project !! k = None)) HEADER.

(** What [get_worksheet] has done when it returns, with a client, started
    in [w]: the handle it returns and the world it leaves. *)
Inductive resolution (w : world) (username : string)
  : option handle -> world -> Prop :=
  | res_found rows w' :
      user_table w username = Some rows ->
      drive w' = drive w -> messages w' = messages w ->
      resolution w username (Some (Handle (target w) username)) w'
  | res_created w' :
      user_table w username = None -> is_Some (drive w !! target w) ->
      drive w' = put_table w username [header_row] ->
      messages w' = messages w ->
      resolution w username (Some (Handle (target w) username)) w'
  | res_failed e w' :
      drive w' = drive w ->
      messages w' = messages w ++ [ErrAccessingSheets e] ->
      resolution w username None w'
  | res_headerless w' :
      user_table w username = None -> is_Some (drive w !! target w) ->
      drive w' = put_table w username [] ->
      messages w' = messages w ++ [ErrAccessingSheets APIError] ->
      resolution w username None w'.

(** From a world where [P] holds, [m] ends, with a result or an exception
    [r], in a world where [Q r] holds. *)
Definition hoare {A} (P : world -> Prop) (m : Api A)
  (Q : result A -> world -> Prop) : Prop :=
  forall w, P w -> Q (fst (m w)) (snd (m w)).

(** [m] keeps the invariant [I], whether it returns or raises. *)
Definition keeps {A} (I : world -> Prop) (m : Api A) : Prop :=
  hoare I m (fun _ w => I w).

(** Apart from the sheet [(l, t)], the drive is that of [w0]; the
    configuration and the session state are those of [w0] too. *)
Definition apart (l : locator) (t : string) (w0 w : world) : Prop :=
  config w = config w0
  /\ session_state w = session_state w0
  /\ forall l' t', (l', t') <> (l, t) -> sheet w l' t' = sheet w0 l' t'.

(** What a run for [username] leaves of [w0]: the configuration, the
    session entries of the other users and every sheet but that user's
    sheet of the target document. *)
Definition frame (username : string) (w0 w : world) : Prop :=
  config w = config w0
  /\ (forall k, k <> session_key username ->
        session_state w !! k = session_state w0 !! k)
  /\ forall l t, (l, t) <> (target w0, username) -> sheet w l t = sheet w0 l t.

(** A store with one project of one user that fails at request [n + 1]. *)
Definition failing_at (n : nat) : world :=
  World (Secrets (Some WellFormedInfo) None)
        {[ ByName "RICE Calculator Data" :=
             {[ "Rolf"%string := [header_row; row_of dark_mode] ]} ]}
        (replicate n false ++ [true]) [] [] ∅.

(** A record with a name and nothing else. *)
Definition name_only : gmap string value :=
  dict_of_pairs [("Project", VStr "Draft")]%string.

(** * Properties of the scorer *)

Lemma rice_zero_effort reach impact confidence effort :
  py_eq_zero effort = true ->
  calculate_rice_score reach impact confidence effort = Ok (PyInt 0).
Proof. intros H. unfold calculate_rice_score. now rewrite H. Qed.

Lemma py_mul_float_r x c f :
  as_float x = Ok f ->
  py_mul x (PyFloat c) = Ok (PyFloat (PrimFloat.mul f c)).
Proof.
  intros H. destruct x as [z|g]; unfold py_mul; rewrite H; reflexivity.
Qed.

Lemma py_truediv_floats f e :
  PrimFloat.eqb e zero = false ->
  py_truediv (PyFloat f) (PyFloat e) = Ok (PyFloat (PrimFloat.div f e)).
Proof. intros H. unfold py_truediv; simpl. now rewrite H. Qed.

Lemma reach_in_range reach : 0 <= reach <= 100 -> reach ∈ reach_range.
Proof.
  intros H. replace reach with (Z.of_nat (Z.to_nat reach)) by lia.
  change reach_range with (map Z.of_nat (seq 0 101)).
  apply list_elem_of_fmap_2, elem_of_seq. lia.
Qed.

(** On the slider values the product [reach * impact] is exact, whether it
    is formed on ints or on floats. *)
Lemma reach_impact_exact :
  Forall (fun reach =>
    Forall (fun impact =>
      rbind (py_mul (PyInt reach) impact) as_float
      = Ok (PrimFloat.mul (Z_to_float reach) (num_float impact)))
      impact_options) reach_range.
Proof.
  unfold reach_range, impact_options.
  repeat (apply Forall_cons; split;
          [ repeat (apply Forall_cons; split; [vm_compute; reflexivity|]);
            apply Forall_nil_2
          | ]).
  apply Forall_nil_2.
Qed.

Lemma rice_nonzero_effort reach impact c e :
  0 <= reach <= 100 -> impact ∈ impact_options ->
  PrimFloat.eqb e zero = false ->
  calculate_rice_score (PyInt reach) impact (PyFloat c) (PyFloat e)
  = Ok (PyFloat (PrimFloat.div
                   (PrimFloat.mul
                      (PrimFloat.mul (Z_to_float reach) (num_float impact)) c)
                   e)).
Proof.
  intros Hr Hi He.
  pose proof reach_impact_exact as HF.
  rewrite Forall_forall in HF. specialize (HF _ (reach_in_range _ Hr)).
  rewrite Forall_forall in HF. specialize (HF _ Hi).
  unfold calculate_rice_score. simpl py_eq_zero. rewrite He.
  destruct (py_mul (PyInt reach) impact) as [x|err]; simpl in HF; [|discriminate].
  simpl rbind. rewrite (py_mul_float_r _ c _ HF). simpl rbind.
  now apply py_truediv_floats.
Qed.

(** No division by zero is ever attempted: whatever the first three
    arguments are, a float effort never makes the scorer raise
    [ZeroDivisionError]. *)
Lemma rice_no_zero_division reach impact confidence e :
  calculate_rice_score reach impact confidence (PyFloat e)
  <> Raise ZeroDivisionError.
Proof.
  unfold calculate_rice_score. simpl py_eq_zero.
  destruct (PrimFloat.eqb e zero) eqn:He; [discriminate|].
  destruct (py_mul reach impact) as [ri|err] eqn:E1; simpl.
  2:{ intros [= ->]. destruct reach, impact; simpl in E1; try discriminate;
      unfold int_to_float in E1;
      repeat match type of E1 with
             | context [match ?x with _ => _ end] => destruct x; simpl in E1
             end; discriminate. }
  destruct (py_mul ri confidence) as [ric|err] eqn:E2; simpl.
  2:{ intros [= ->]. destruct ri, confidence; simpl in E2; try discriminate;
      unfold int_to_float in E2;
      repeat match type of E2 with
             | context [match ?x with _ => _ end] => destruct x; simpl in E2
             end; discriminate. }
  destruct ric as [z|f]; unfold py_truediv; simpl.
  - unfold int_to_float.
    destruct (binary_normalize prec emax z 0 false); simpl;
      try discriminate; now rewrite He.
  - now rewrite He.
Qed.

(** C1.  The scorer returns 0 whenever the effort equals 0, for any other
    arguments; on the inputs of the form (reach an int of 0..100, impact one
    of the five selector values, confidence fraction and effort any floats)
    it never raises and returns 0 at effort 0 and
    (reach * impact * confidence) / effort otherwise; and with a float effort
    it never raises ZeroDivisionError, whatever the other arguments. *)
Theorem calculate_rice_score_spec :
  (forall reach impact confidence effort,
      py_eq_zero effort = true ->
      calculate_rice_score reach impact confidence effort = Ok (PyInt 0))
  /\ (forall reach impact c e,
        0 <= reach <= 100 -> impact ∈ impact_options ->
        calculate_rice_score (PyInt reach) impact (PyFloat c) (PyFloat e)
        = Ok (if PrimFloat.eqb e zero then PyInt 0
              else PyFloat (PrimFloat.div
                              (PrimFloat.mul
                                 (PrimFloat.mul (Z_to_float reach)
                                                (num_float impact)) c)
                              e)))
  /\ (forall reach impact confidence e,
        calculate_rice_score reach impact confidence (PyFloat e)
        <> Raise ZeroDivisionError).
Proof.
  split; [exact rice_zero_effort|]. split; [|exact rice_no_zero_division].
  intros reach impact c e Hr Hi.
  destruct (PrimFloat.eqb e zero) eqn:He.
  - now apply rice_zero_effort.
  - now apply rice_nonzero_effort.
Qed.

(** The worked example: reach 80, impact 2, confidence 0.9, effort 3. *)
Lemma calculate_rice_score_spec_witness :
  0 <= 80 <= 100 /\ PyInt 2 ∈ impact_options
  /\ calculate_rice_score (PyInt 80) (PyInt 2)
       (PyFloat 0x1.ccccccccccccdp-1) (PyFloat 3)
     = Ok (PyFloat 48).
Proof.
  assert (Hr : 0 <= 80 <= 100) by lia.
  assert (Hi : PyInt 2 ∈ impact_options)
    by (unfold impact_options; do 3 apply list_elem_of_further; apply list_elem_of_here).
  split; [exact Hr|]. split; [exact Hi|].
  exact (proj1 (proj2 calculate_rice_score_spec) 80 (PyInt 2)
           0x1.ccccccccccccdp-1%float 3%float Hr Hi).
Defined.

(** * The store: requests that succeed *)

Lemma init_gsheets_configured w :
  gcp_service_account (config w) = Some WellFormedInfo ->
  init_gsheets w = (Ok (Some GspreadClient), w).
Proof.
  intros H. unfold init_gsheets, try_except, bind, secrets_service_account.
  now rewrite H.
Qed.

Lemma init_gsheets_unconfigured w :
  gcp_service_account (config w) <> Some WellFormedInfo ->
  init_gsheets w = (Ok None, w).
Proof.
  intros H. unfold init_gsheets, try_except, bind, secrets_service_account.
  destruct (gcp_service_account (config w)) as [[]|]; try reflexivity.
  now contradiction H.
Qed.

Lemma init_gsheets_total w : exists gc, init_gsheets w = (Ok gc, w).
Proof.
  unfold init_gsheets, try_except, bind, secrets_service_account.
  destruct (gcp_service_account (config w)) as [[]|]; eauto.
Qed.

Lemma request_quiet c w :
  faults w = [] -> request c w = (Ok tt, after w (drive w) [c]).
Proof. intros H. unfold request. simpl. now rewrite H. Qed.

Lemma after_after w d cs d' cs' :
  after (after w d cs) d' cs' = after w d' (cs ++ cs').
Proof. unfold after; simpl. now rewrite app_assoc. Qed.

Lemma update_sheet_found ws f w doc rows :
  drive w !! h_doc ws = Some doc -> doc !! h_title ws = Some rows ->
  update_sheet ws f w
  = (Ok tt, after w (<[h_doc ws := <[h_title ws := f rows]> doc]> (drive w)) []).
Proof.
  intros Hd Hr. unfold update_sheet. rewrite Hd, Hr.
  unfold after, set_drive. now rewrite app_nil_r.
Qed.

Lemma append_row_quiet ws vals w doc rows :
  faults w = [] ->
  drive w !! h_doc ws = Some doc -> doc !! h_title ws = Some rows ->
  append_row ws vals w
  = (Ok tt, after w (<[h_doc ws := <[h_title ws := rows ++ [vals]]> doc]> (drive w))
                    [AppendRow (h_title ws) vals]).
Proof.
  intros Hq Hd Hr. unfold append_row, bind.
  rewrite (request_quiet _ _ Hq).
  rewrite (update_sheet_found _ _ _ doc rows) by assumption.
  now rewrite after_after, app_nil_r.
Qed.

Lemma clear_quiet ws w doc rows :
  faults w = [] ->
  drive w !! h_doc ws = Some doc -> doc !! h_title ws = Some rows ->
  clear ws w
  = (Ok tt, after w (<[h_doc ws := <[h_title ws := []]> doc]> (drive w))
                    [Clear (h_title ws)]).
Proof.
  intros Hq Hd Hr. unfold clear, bind.
  rewrite (request_quiet _ _ Hq).
  rewrite (update_sheet_found _ _ _ doc rows) by assumption.
  now rewrite after_after, app_nil_r.
Qed.

Lemma open_target_quiet w doc :
  faults w = [] -> drive w !! target w = Some doc ->
  (if String.eqb (default EmptyString (spreadsheet_url (config w))) EmptyString
   then open_by_name GspreadClient "RICE Calculator Data"
   else open_by_url GspreadClient (default EmptyString (spreadsheet_url (config w)))) w
  = (Ok (target w), after w (drive w) [open_call w]).
Proof.
  intros Hq Hd. unfold target, open_call in *.
  destruct (String.eqb _ _); unfold open_by_name, open_by_url, bind;
    rewrite (request_quiet _ _ Hq); simpl; now rewrite Hd.
Qed.

Lemma worksheet_quiet sh title w doc :
  faults w = [] -> drive w !! sh = Some doc ->
  worksheet sh title w
  = (match doc !! title with
     | Some _ => Ok (Handle sh title)
     | None => Raise WorksheetNotFound
     end, after w (drive w) [GetWorksheet title]).
Proof.
  intros Hq Hd. unfold worksheet, bind. rewrite (request_quiet _ _ Hq).
  simpl. rewrite Hd. now destruct (doc !! title).
Qed.

Lemma add_worksheet_quiet sh title w doc :
  faults w = [] -> drive w !! sh = Some doc -> doc !! title = None ->
  add_worksheet sh title w
  = (Ok (Handle sh title),
     after w (<[sh := <[title := []]> doc]> (drive w)) [AddWorksheet title]).
Proof.
  intros Hq Hd Hn. unfold add_worksheet, bind. rewrite (request_quiet _ _ Hq).
  simpl. now rewrite Hd, Hn.
Qed.

Lemma get_worksheet_existing w username doc rows :
  faults w = [] -> drive w !! target w = Some doc ->
  doc !! username = Some rows ->
  get_worksheet (Some GspreadClient) username w
  = (Ok (Some (Handle (target w) username)),
     after w (drive w) [open_call w; GetWorksheet username]).
Proof.
  intros Hq Hd Hr. unfold get_worksheet, try_except, bind at 1.
  rewrite (open_target_quiet _ _ Hq Hd).
  unfold bind, try_except.
  rewrite (worksheet_quiet _ _ _ doc) by assumption.
  rewrite Hr. unfold ret. now rewrite after_after.
Qed.

Lemma get_worksheet_missing w username doc :
  faults w = [] -> drive w !! target w = Some doc ->
  doc !! username = None ->
  get_worksheet (Some GspreadClient) username w
  = (Ok (Some (Handle (target w) username)),
     after w (<[target w := <[username := [header_row]]> doc]> (drive w))
       [open_call w; GetWorksheet username; AddWorksheet username;
        AppendRow username header_row]).
Proof.
  intros Hq Hd Hr. unfold get_worksheet, try_except, bind at 1.
  rewrite (open_target_quiet _ _ Hq Hd).
  unfold bind, try_except.
  rewrite (worksheet_quiet _ _ _ doc) by assumption.
  rewrite Hr.
  rewrite (add_worksheet_quiet _ _ _ doc) by assumption.
  rewrite (append_row_quiet _ _ _ (<[username := []]> doc) [])
    by (simpl; first [assumption | apply lookup_insert_eq]).
  unfold ret. rewrite !after_after. simpl.
  now rewrite !insert_insert_eq.
Qed.

Lemma project_cells_fields project keys :
  (forall k, k ∈ keys -> is_Some (project !! k)) ->
  project_cells project keys
  = Ok (map (fun k => default (VStr EmptyString) (project !! k)) keys).
Proof.
  induction keys as [|k keys IH]; intros H; simpl; [reflexivity|].
  destruct (H k (list_elem_of_here _ _)) as [v Hv].
  unfold getitem. rewrite Hv. simpl.
  rewrite IH by (intros k' Hk'; apply H; now apply list_elem_of_further).
  reflexivity.
Qed.

Lemma project_cells_row project :
  has_fields project -> project_cells project HEADER = Ok (row_of project).
Proof. intros H. now apply project_cells_fields. Qed.

Lemma for_each_append ws projects :
  Forall has_fields projects ->
  forall w doc rows,
    faults w = [] ->
    drive w !! h_doc ws = Some doc -> doc !! h_title ws = Some rows ->
    for_each projects (fun project =>
         bind (lift (project_cells project HEADER)) (fun cells => append_row ws cells)) w
    = (Ok tt,
       after w (<[h_doc ws := <[h_title ws := rows ++ map row_of projects]> doc]>
                  (drive w))
             (map (fun p => AppendRow (h_title ws) (row_of p)) projects)).
Proof.
  induction 1 as [|p ps Hp Hps IH]; intros w doc rows Hq Hd Hr.
  - simpl. unfold ret, after. rewrite !app_nil_r.
    rewrite (insert_id doc), (insert_id (drive w)) by assumption.
    now destruct w.
  - cbn [for_each]. unfold bind at 1. unfold bind at 1, lift.
    rewrite (project_cells_row _ Hp).
    rewrite (append_row_quiet _ _ _ doc rows) by assumption.
    rewrite (IH _ (<[h_title ws := rows ++ [row_of p]]> doc) (rows ++ [row_of p]));
      [| assumption | simpl; apply lookup_insert_eq | apply lookup_insert_eq].
    rewrite after_after. simpl.
    now rewrite !insert_insert_eq, <- app_assoc.
Qed.

Lemma write_projects_quiet ws projects w doc rows :
  Forall has_fields projects ->
  faults w = [] ->
  drive w !! h_doc ws = Some doc -> doc !! h_title ws = Some rows ->
  write_projects ws projects w
  = (Ok true,
     after w (<[h_doc ws := <[h_title ws := header_row :: map row_of projects]> doc]>
                (drive w))
       ([Clear (h_title ws); AppendRow (h_title ws) header_row]
          ++ map (fun p => AppendRow (h_title ws) (row_of p)) projects)).
Proof.
  intros Hf Hq Hd Hr. unfold write_projects, bind at 1.
  rewrite (clear_quiet _ _ doc rows) by assumption.
  unfold bind at 1.
  rewrite (append_row_quiet _ _ _ (<[h_title ws := []]> doc) [])
    by (simpl; first [assumption | apply lookup_insert_eq]).
  rewrite after_after. simpl app. simpl drive.
  unfold bind at 1.
  assert (Hloop :
    (match projects with
     | [] => ret tt
     | _ :: _ => for_each projects (fun project =>
         bind (lift (project_cells project HEADER)) (fun cells => append_row ws cells))
     end) = for_each projects (fun project =>
         bind (lift (project_cells project HEADER)) (fun cells => append_row ws cells)))
    by now destruct projects.
  rewrite Hloop.
  rewrite (for_each_append _ _ Hf _ (<[h_title ws := [header_row]]> (<[h_title ws := []]> doc)) [header_row]);
    [| assumption | simpl; apply lookup_insert_eq | apply lookup_insert_eq].
  unfold ret. rewrite after_after. simpl.
  now rewrite !insert_insert_eq.
Qed.

Lemma fill_gaps_uniform n texts :
  Forall (fun r => length r = n) texts -> fill_gaps texts = texts.
Proof.
  intros H. unfold fill_gaps.
  assert (Hw : (foldr Nat.max 0 (map length texts) <= n)%nat).
  { induction H as [|r rs Hr _ IH]; simpl; lia. }
  induction H as [|r rs Hr Hrs IH]; [reflexivity|].
  simpl in *. f_equal.
  - replace (_ - _)%nat with 0%nat by lia. apply app_nil_r.
  - rewrite <- IH at 2 by lia.
    apply map_ext_in. intros a Ha.
    rewrite Forall_forall in Hrs. apply list_elem_of_In, Hrs in Ha.
    replace (_ - length a)%nat with 0%nat by lia.
    replace (_ - length a)%nat with 0%nat by lia. reflexivity.
Qed.

Section Format.
Context `{F : SheetFormat}.






End Format.

Lemma user_table_doc w username doc :
  drive w !! target w = Some doc -> user_table w username = doc !! username.
Proof. intros H. unfold user_table. now rewrite H. Qed.

Lemma put_table_same w username doc rows :
  drive w !! target w = Some doc -> doc !! username = Some rows ->
  put_table w username rows = drive w.
Proof.
  intros Hd Hr. unfold put_table. rewrite Hd.
  now rewrite (insert_id doc), (insert_id (drive w)).
Qed.

(** Resolving the handle on a reachable store whose requests succeed. *)
Lemma get_worksheet_quiet w username :
  reachable w -> faults w = [] ->
  get_worksheet (Some GspreadClient) username w
  = (Ok (Some (Handle (target w) username)),
     after w (put_table w username (default [header_row] (user_table w username)))
       (resolve_calls w username)).
Proof.
  intros [_ [doc Hd]] Hq. unfold resolve_calls.
  rewrite (user_table_doc _ _ _ Hd).
  destruct (doc !! username) as [rows|] eqn:Hr.
  - rewrite (get_worksheet_existing _ _ _ _ Hq Hd Hr). simpl.
    now rewrite (put_table_same _ _ _ _ Hd Hr).
  - rewrite (get_worksheet_missing _ _ _ Hq Hd Hr). simpl.
    unfold put_table. now rewrite Hd.
Qed.

Lemma save_quiet w username projects :
  reachable w -> faults w = [] -> Forall has_fields projects ->
  save_user_projects username projects w
  = (Ok true,
     after w (put_table w username (header_row :: map row_of projects))
       (resolve_calls w username
          ++ [Clear username; AppendRow username header_row]
          ++ map (fun p => AppendRow username (row_of p)) projects)).
Proof.
  intros Hr Hq Hf. pose proof Hr as [Hc [doc Hd]].
  unfold save_user_projects, bind at 1.
  rewrite (init_gsheets_configured _ Hc). unfold bind at 1.
  rewrite (get_worksheet_quiet _ _ Hr Hq). unfold try_except.
  set (rows := default [header_row] (user_table w username)).
  erewrite (write_projects_quiet _ _ _ (<[username := rows]> doc) rows Hf).
  - rewrite after_after. simpl. unfold put_table. rewrite Hd.
    now rewrite !insert_insert_eq.
  - exact Hq.
  - simpl. unfold put_table. rewrite Hd. apply lookup_insert_eq.
  - simpl. apply lookup_insert_eq.
Qed.

Section Load.
Context `{F : SheetFormat}.

Lemma get_all_records_quiet ws w doc rows :
  faults w = [] ->
  drive w !! h_doc ws = Some doc -> doc !! h_title ws = Some rows ->
  get_all_records ws w
  = (Ok (records_of_sheet rows), after w (drive w) [GetAllRecords (h_title ws)]).
Proof.
  intros Hq Hd Hr. unfold get_all_records, bind.
  rewrite (request_quiet _ _ Hq). simpl. now rewrite Hd, Hr.
Qed.

Lemma load_quiet w username :
  reachable w -> faults w = [] ->
  load_user_projects username w
  = (Ok (records_of_sheet (default [header_row] (user_table w username))),
     after w (put_table w username (default [header_row] (user_table w username)))
       (resolve_calls w username ++ [GetAllRecords username])).
Proof.
  intros Hr Hq. pose proof Hr as [Hc [doc Hd]].
  unfold load_user_projects, bind at 1.
  rewrite (init_gsheets_configured _ Hc). unfold bind at 1.
  rewrite (get_worksheet_quiet _ _ Hr Hq). unfold try_except.
  set (rows := default [header_row] (user_table w username)).
  erewrite (get_all_records_quiet _ _ (<[username := rows]> doc) rows).
  - now rewrite after_after.
  - exact Hq.
  - simpl. unfold put_table. rewrite Hd. apply lookup_insert_eq.
  - simpl. apply lookup_insert_eq.
Qed.

End Load.

Lemma reachable_after w rows username cs :
  reachable w -> reachable (after w (put_table w username rows) cs).
Proof.
  intros [Hc [doc Hd]]. split; [exact Hc|].
  change (target (after w (put_table w username rows) cs)) with (target w).
  simpl. unfold put_table. rewrite Hd. rewrite lookup_insert_eq. eauto.
Qed.

Lemma user_table_after w rows username cs :
  reachable w ->
  user_table (after w (put_table w username rows) cs) username = Some rows.
Proof.
  intros [Hc [doc Hd]]. unfold user_table.
  change (target (after w (put_table w username rows) cs)) with (target w).
  simpl. unfold put_table. rewrite Hd, lookup_insert_eq. simpl.
  apply lookup_insert_eq.
Qed.

Lemma user_table_after_ne w rows username other cs :
  other <> username ->
  user_table (after w (put_table w username rows) cs) other = user_table w other.
Proof.
  intros Hne. unfold user_table.
  change (target (after w (put_table w username rows) cs)) with (target w).
  simpl. unfold put_table.
  destruct (drive w !! target w) as [doc|] eqn:Hd; [|now rewrite Hd].
  rewrite lookup_insert_eq. simpl. now apply lookup_insert_ne.
Qed.

Lemma put_table_after w rows rows' username cs :
  put_table (after w (put_table w username rows) cs) username rows'
  = put_table w username rows'.
Proof.
  unfold put_table at 1.
  change (target (after w (put_table w username rows) cs)) with (target w).
  simpl. unfold put_table.
  destruct (drive w !! target w) as [doc|] eqn:Hd.
  - rewrite lookup_insert_eq. now rewrite !insert_insert_eq.
  - now rewrite Hd.
Qed.




Section Totality.
Context `{F : SheetFormat}.

Lemma load_unfold username w gc w0 ws w1 :
  init_gsheets w = (Ok gc, w0) ->
  get_worksheet gc username w0 = (Ok ws, w1) ->
  load_user_projects username w
  = match ws with
    | None => (Ok [], w1)
    | Some ws =>
        match get_all_records ws w1 with
        | (Ok records, w2) => (Ok records, w2)
        | (Raise _, w2) => (Ok [], w2)
        end
    end.
Proof.
  intros Hi Hg. unfold load_user_projects, bind at 1. rewrite Hi.
  unfold bind at 1. rewrite Hg. destruct ws as [ws|]; [|reflexivity].
  unfold try_except. destruct (get_all_records ws w1) as [[records|e] w2];
    reflexivity.
Qed.


End Totality.

Lemma save_unfold username projects w gc w0 ws w1 :
  init_gsheets w = (Ok gc, w0) ->
  get_worksheet gc username w0 = (Ok ws, w1) ->
  save_user_projects username projects w
  = match ws with
    | None => (Ok true, post_message WarnNotConfigured w1)
    | Some ws =>
        match write_projects ws projects w1 with
        | (Ok saved, w2) => (Ok saved, w2)
        | (Raise e, w2) => (Ok false, post_message (ErrSaving e) w2)
        end
    end.
Proof.
  intros Hi Hg. unfold save_user_projects, bind at 1. rewrite Hi.
  unfold bind at 1. rewrite Hg. destruct ws as [ws|]; [|reflexivity].
  unfold try_except. destruct (write_projects ws projects w1) as [[saved|e] w2];
    reflexivity.
Qed.


(** * The example data *)

Lemma fresh_store_reachable : reachable fresh_store.
Proof.
  split; [reflexivity|]. exists ∅.
  change (target fresh_store) with (ByName "RICE Calculator Data").
  apply lookup_singleton_eq.
Qed.

Lemma dict_is_project v1 v2 v3 v4 v5 v6 :
  is_project
    (dict_of_pairs
       [("Project", v1); ("Reach (%)", v2); ("Impact", v3);
        ("Confidence (%)", v4); ("Effort (months)", v5);
        ("RICE Score", v6)]%string).
Proof.
  intros k. unfold dict_of_pairs, HEADER; simpl.
  rewrite !lookup_insert_is_Some, lookup_empty, is_Some_alt.
  rewrite !elem_of_cons, elem_of_nil.
  split.
  - intros Hk. repeat (destruct Hk as [<-|[_ Hk]]; [tauto|]). contradiction.
  - intros Hk.
    repeat (destruct Hk as [->|Hk];
            [ repeat (first [left; reflexivity | right; split; [discriminate|]])
            | ]).
    contradiction.
Qed.

Lemma is_project_has_fields project : is_project project -> has_fields project.
Proof. intros Hp k Hk. now apply Hp. Qed.


(** * The save *)





(** A save whose first write fails reports failure. *)
Example save_fails :
  fst (save_user_projects "Rolf" [dark_mode] failing_store) = Ok false.
Proof. vm_compute. reflexivity. Qed.

(** * The load *)

Lemma records_of_header `{F : SheetFormat} : records_of_sheet [header_row] = [].
Proof.
  unfold records_of_sheet.
  rewrite (fill_gaps_uniform 6) by (repeat constructor).
  reflexivity.
Qed.



(** A read that fails gives the empty list. *)
Example load_swallows_read_error :
  fst (load_user_projects (F := plain_format) "Rolf" failing_store) = Ok [].
Proof. vm_compute. reflexivity. Qed.

(** C10.  Loading is not read-only: for a user without a table, on a
    reachable store whose requests succeed, the load adds the user's
    worksheet and appends the header row, and only then reads; it returns
    the empty list and leaves the user with a table holding the header. *)
Theorem load_creates_table `{F : SheetFormat} username w :
  reachable w -> faults w = [] -> user_table w username = None ->
  exists w',
    load_user_projects username w = (Ok [], w')
    /\ calls w' = calls w ++ [open_call w; GetWorksheet username;
                              AddWorksheet username;
                              AppendRow username header_row;
                              GetAllRecords username]
    /\ user_table w' username = Some [header_row]
    /\ drive w' <> drive w.
Proof.
  intros Hr Hq Hn. eexists. split; [|split; [|split]].
  - rewrite (load_quiet _ _ Hr Hq), Hn. simpl default.
    rewrite records_of_header. reflexivity.
  - simpl. unfold resolve_calls. rewrite Hn. reflexivity.
  - now apply user_table_after.
  - intros Heq.
    pose proof (user_table_after w [header_row] username
                  (resolve_calls w username ++ [GetAllRecords username]) Hr) as Ht.
    unfold user_table in Ht, Hn.
    change (target (after _ _ _)) with (target w) in Ht.
    simpl drive in Heq, Ht. rewrite Heq, Hn in Ht. discriminate.
Qed.

Lemma load_creates_table_witness :
  reachable fresh_store /\ faults fresh_store = []
  /\ user_table fresh_store "Rolf" = None
  /\ exists w',
       load_user_projects (F := plain_format) "Rolf" fresh_store = (Ok [], w')
       /\ user_table w' "Rolf" = Some [header_row].
Proof.
  assert (Hn : user_table fresh_store "Rolf" = None) by reflexivity.
  split; [exact fresh_store_reachable|]. split; [reflexivity|].
  split; [exact Hn|].
  destruct (load_creates_table (F := plain_format) "Rolf" fresh_store
              fresh_store_reachable eq_refl Hn) as (w' & Hl & _ & Ht & _).
  exists w'. now split.
Defined.

(** * Save, then load *)












(** * The add action *)

Lemma confidence_fraction_exact :
  Forall (fun c =>
    py_truediv (PyInt c) (PyInt 100)
    = Ok (PyFloat (PrimFloat.div (Z_to_float c) 100))) reach_range.
Proof.
  unfold reach_range.
  repeat (apply Forall_cons; split; [vm_compute; reflexivity|]).
  apply Forall_nil_2.
Qed.

(** An effort of at least 0.1 is not zero. *)
Lemma effort_nonzero e :
  PrimFloat.leb 0x1.999999999999ap-4 e = true -> PrimFloat.eqb e zero = false.
Proof.
  rewrite FloatAxioms.leb_spec, FloatAxioms.eqb_spec.
  destruct (Prim2SF e) as [s|s| |s m x]; try (destruct s); vm_compute;
    congruence.
Qed.

Lemma valid_score ui :
  valid_inputs ui ->
  rbind (py_truediv (PyInt (confidence ui)) (PyInt 100)) (fun confidence_decimal =>
    calculate_rice_score (PyInt (reach ui)) (impact ui) confidence_decimal
      (PyFloat (effort ui)))
  = Ok (PyFloat (rice_formula ui)).
Proof.
  intros (Hr & Hi & Hc & He & _).
  pose proof confidence_fraction_exact as HF.
  rewrite Forall_forall in HF. rewrite (HF _ (reach_in_range _ Hc)).
  simpl rbind. unfold rice_formula.
  now apply rice_nonzero_effort, effort_nonzero.
Qed.



Lemma name_given name :
  name <> EmptyString -> negb (String.eqb name EmptyString) = true.
Proof.
  intros Hn. destruct (String.eqb_spec name EmptyString); [contradiction|].
  reflexivity.
Qed.






(** The documented scenarios: (80, 2, 90, 3) gives 48.0 and (70, 2, 95, 2)
    gives 66.5; a score that needs the rounding: (50, 0.25, 33, 0.7)
    gives 5.89. *)
Example worked_scores :
  float_round2 (rice_formula example_ui) = Ok 48%float
  /\ float_round2
       (rice_formula (Widgets "Rolf" "Push Notifications" 70 (PyInt 2) 95 2
                        true false))
     = Ok 66.5%float
  /\ float_round2
       (rice_formula (Widgets "Rolf" "Dark Mode" 50 (PyFloat 0.25) 33
                        0x1.6666666666666p-1 true false))
     = Ok 0x1.78f5c28f5c28fp+2%float.
Proof. repeat split; vm_compute; reflexivity. Qed.

(** * The unavailable store *)

Section Unavailable.
Context `{F : SheetFormat}.
Variable w : world.
Hypothesis no_client : gcp_service_account (config w) <> Some WellFormedInfo.

Lemma load_unavailable username :
  load_user_projects username w = (Ok [], w).
Proof.
  unfold load_user_projects, bind.
  now rewrite (init_gsheets_unconfigured _ no_client).
Qed.

Lemma save_unavailable username projects :
  save_user_projects username projects w
  = (Ok true, post_message WarnNotConfigured w).
Proof.
  unfold save_user_projects, bind.
  now rewrite (init_gsheets_unconfigured _ no_client).
Qed.

End Unavailable.

Lemma add_action_released `{F : SheetFormat} ui :
  add_action (release ui) = ret Finished.
Proof. reflexivity. Qed.

(** A run without a click when the store is unavailable. *)
Lemma main_released_unavailable `{F : SheetFormat} `{D : Display} ui w :
  gcp_service_account (config w) <> Some WellFormedInfo ->
  main (release ui) w
  = (Ok Finished,
     post_message InfoAddFirst
       (set_session (session_key (selected_user ui)) []
          (post_message WarnNotConfigured w))).
Proof.
  intros Hc. unfold main, bind at 1. rewrite (init_gsheets_unconfigured _ Hc).
  unfold bind at 1, st_message at 1. unfold bind at 1.
  rewrite add_action_released. unfold ret at 1.
  unfold main_area, bind at 1. rewrite load_unavailable by exact Hc.
  reflexivity.
Qed.

(** C9.  What the script does when the store is unavailable.  Every save
    reports success; after an add action the record is put in the session
    state, and the drive and the request log are untouched.  The rerun that
    follows loads the empty list and overwrites the session entry with it:
    a load in the same session returns no record, as does a load after a
    restart. *)
Theorem unavailable_store_forgets `{F : SheetFormat} `{D : Display} ui w s :
  gcp_service_account (config w) <> Some WellFormedInfo ->
  valid_inputs ui -> add_clicked ui = true ->
  project_name ui <> EmptyString ->
  float_round2 (rice_formula ui) = Ok s ->
  let u := selected_user ui in
  exists w1 w2,
    (forall projects,
        save_user_projects u projects w
        = (Ok true, post_message WarnNotConfigured w))
    /\ main ui w = (Ok Rerun, w1)
    /\ SuccessAdded (project_name ui) ∈ messages w1
    /\ session_state w1 !! session_key u = Some [new_project ui (PyFloat s)]
    /\ drive w1 = drive w /\ calls w1 = calls w
    /\ load_user_projects u w1 = (Ok [], w1)
    /\ main (release ui) w1 = (Ok Finished, w2)
    /\ interaction ui w = (Ok Finished, w2)
    /\ session_state w2 !! session_key u = Some []
    /\ load_user_projects u (restart w1) = (Ok [], restart w1).
Proof.
  intros Hc Hv Hadd Hname Hs u.
  pose proof (valid_score ui Hv) as Hscore.
  assert (Hmain : main ui w
    = (Ok Rerun,
       set_session (session_key u) [new_project ui (PyFloat s)]
         (post_message (SuccessAdded (project_name ui))
            (post_message WarnNotConfigured (post_message WarnNotConfigured w))))).
  { unfold main, bind at 1. rewrite (init_gsheets_unconfigured _ Hc).
    unfold bind at 1, st_message at 1. unfold bind at 1.
    unfold add_action. rewrite Hadd, (name_given _ Hname).
    destruct (py_truediv (PyInt (confidence ui)) (PyInt 100)) as [cd|e];
      [|discriminate]. simpl in Hscore.
    unfold bind at 1, lift at 1. unfold bind at 1, lift at 1. rewrite Hscore.
    unfold bind at 1. rewrite load_unavailable by exact Hc.
    unfold bind at 1, lift at 1. unfold py_round2, rbind. rewrite Hs.
    unfold bind at 1. rewrite save_unavailable by exact Hc.
    reflexivity. }
  rewrite Hmain.
  eexists. eexists.
  split; [intros projects; now apply save_unavailable|].
  split; [reflexivity|].
  split; [simpl; apply elem_of_app; right; apply list_elem_of_here|].
  split; [apply lookup_insert_eq|].
  split; [reflexivity|]. split; [reflexivity|].
  split; [now apply load_unavailable|].
  split; [now apply main_released_unavailable|].
  split.
  { unfold interaction, bind. rewrite Hmain.
    now apply main_released_unavailable. }
  split; [apply lookup_insert_eq|].
  now apply load_unavailable.
Qed.

Lemma unavailable_store_forgets_witness :
  valid_inputs example_ui
  /\ float_round2 (rice_formula example_ui) = Ok 48%float
  /\ exists w1 w2,
       main (F := plain_format) (D := plain_display) example_ui no_store = (Ok Rerun, w1)
       /\ session_state w1 !! "projects_Rolf"%string
          = Some [new_project example_ui (PyFloat 48)]
       /\ load_user_projects (F := plain_format) "Rolf" w1 = (Ok [], w1)
       /\ main (F := plain_format) (D := plain_display) (release example_ui) w1 = (Ok Finished, w2)
       /\ session_state w2 !! "projects_Rolf"%string = Some [].
Proof.
  assert (Hv : valid_inputs example_ui).
  { repeat split; try reflexivity; try (simpl; lia).
    unfold impact_options. simpl.
    do 3 apply list_elem_of_further. apply list_elem_of_here. }
  assert (Hc : gcp_service_account (config no_store) <> Some WellFormedInfo)
    by discriminate.
  assert (Hname : project_name example_ui <> EmptyString) by discriminate.
  assert (E : float_round2 (rice_formula example_ui) = Ok 48%float)
    by (vm_compute; reflexivity).
  split; [exact Hv|]. split; [exact E|].
  destruct (unavailable_store_forgets (F := plain_format)
              (D := plain_display) example_ui no_store
              48%float Hc Hv eq_refl Hname E)
    as (w1 & w2 & _ & Hm & _ & Hs1 & _ & _ & Hl & Hm2 & _ & Hs2 & _).
  exists w1, w2. repeat split; assumption.
Defined.

(** * The store when requests fail *)

(** ** Reasoning about what a computation leaves unchanged *)

Lemma hoare_bind {A B} P (m : Api A) (k : A -> Api B) Q1 Q :
  hoare P m Q1 ->
  (forall a, hoare (Q1 (Ok a)) (k a) Q) ->
  (forall e w, Q1 (Raise e) w -> Q (Raise e) w) ->
  hoare P (bind m k) Q.
Proof.
  intros Hm Hk He w Hw. specialize (Hm w Hw). unfold bind.
  destruct (m w) as [[a|e] w1]; simpl in Hm.
  - now apply Hk.
  - now apply He.
Qed.

Lemma hoare_try {A} P (m : Api A) (h : exn -> Api A) Q1 Q :
  hoare P m Q1 ->
  (forall a w, Q1 (Ok a) w -> Q (Ok a) w) ->
  (forall e, hoare (Q1 (Raise e)) (h e) Q) ->
  hoare P (try_except m h) Q.
Proof.
  intros Hm Ha Hh w Hw. specialize (Hm w Hw). unfold try_except.
  destruct (m w) as [[a|e] w1]; simpl in Hm.
  - now apply Ha.
  - now apply Hh.
Qed.

Lemma res_found' w u L doc rows w' :
  target w = L -> drive w !! L = Some doc -> doc !! u = Some rows ->
  drive w' = drive w -> messages w' = messages w ->
  resolution w u (Some (Handle L u)) w'.
Proof.
  intros <- Hd Hr Hw Hm. apply (res_found w u rows); try assumption.
  unfold user_table. now rewrite Hd.
Qed.

Lemma res_created' w u L doc w' :
  target w = L -> drive w !! L = Some doc -> doc !! u = None ->
  drive w' = <[L := <[u := [header_row]]> doc]> (drive w) ->
  messages w' = messages w ->
  resolution w u (Some (Handle L u)) w'.
Proof.
  intros <- Hd Hr Hw Hm. apply res_created; try assumption.
  - unfold user_table. now rewrite Hd.
  - eauto.
  - unfold put_table. now rewrite Hd.
Qed.

Lemma res_headerless' w u L doc w' :
  target w = L -> drive w !! L = Some doc -> doc !! u = None ->
  drive w' = <[L := <[u := []]> doc]> (drive w) ->
  messages w' = messages w ++ [ErrAccessingSheets APIError] ->
  resolution w u None w'.
Proof.
  intros <- Hd Hr Hw Hm. apply res_headerless; try assumption.
  - unfold user_table. now rewrite Hd.
  - eauto.
  - unfold put_table. now rewrite Hd.
Qed.

Lemma get_worksheet_resolution gc username w :
  exists ws w',
    get_worksheet (Some gc) username w = (Ok ws, w')
    /\ resolution w username ws w'
    /\ config w' = config w /\ session_state w' = session_state w.
Proof.
  destruct w as [cfg d fs cs ms ss].
  unfold get_worksheet, try_except, bind at 1. simpl.
  set (url := default EmptyString (spreadsheet_url cfg)).
  assert (Ht : forall f c m s,
             target (World cfg d f c m s)
             = if String.eqb url EmptyString
               then ByName "RICE Calculator Data" else ByUrl url)
    by reflexivity.
  destruct (String.eqb url EmptyString) eqn:Hurl;
  unfold open_by_name, open_by_url, worksheet, add_worksheet, append_row,
    update_sheet, request, bind, try_except, ret, raise, st_message; simpl;
  repeat (match goal with
          | |- context [match ?fs with [] => _ | _ :: _ => _ end] =>
              is_var fs; destruct fs as [|[] ?]
          | |- context [match ?d !! ?k with _ => _ end] =>
              first [rewrite lookup_insert_eq | destruct (d !! k) eqn:?]
          end; simpl).
  all: try congruence.
  all: simplify_eq.
  all: eexists; eexists; (split; [reflexivity|]); simpl.
  all: (split; [|split; reflexivity]).
  all: first
    [ solve [eapply res_found'; [apply Ht | eassumption | eassumption
                               | reflexivity | reflexivity]]
    | solve [eapply res_created'; [apply Ht | eassumption | eassumption
                               | simpl; now rewrite !insert_insert_eq
                               | reflexivity]]
    | solve [eapply res_headerless'; [apply Ht | eassumption | eassumption
                               | reflexivity | reflexivity]]
    | solve [eapply res_failed; reflexivity] ].
Qed.

Lemma keeps_ret {A} I (a : A) : keeps I (ret a).
Proof. intros w Hw. exact Hw. Qed.

Lemma keeps_lift {A} I (r : result A) : keeps I (lift r).
Proof. intros w Hw. exact Hw. Qed.

Lemma keeps_bind {A B} I (m : Api A) (k : A -> Api B) :
  keeps I m -> (forall a, keeps I (k a)) -> keeps I (bind m k).
Proof.
  intros Hm Hk. eapply hoare_bind; [exact Hm| |].
  - intros a. apply Hk.
  - intros e w Hw. exact Hw.
Qed.

Lemma keeps_try {A} I (m : Api A) (h : exn -> Api A) :
  keeps I m -> (forall e, keeps I (h e)) -> keeps I (try_except m h).
Proof.
  intros Hm Hh. eapply hoare_try; [exact Hm| |].
  - intros a w Hw. exact Hw.
  - intros e. apply Hh.
Qed.

Lemma keeps_for_each {A} I (xs : list A) body :
  (forall x, keeps I (body x)) -> keeps I (for_each xs body).
Proof.
  intros Hb. induction xs as [|x xs IH]; simpl.
  - apply keeps_ret.
  - apply keeps_bind; [apply Hb|]. intros _. exact IH.
Qed.

(** What a request leaves as it is. *)
Lemma request_effect c w :
  config (snd (request c w)) = config w
  /\ drive (snd (request c w)) = drive w
  /\ messages (snd (request c w)) = messages w
  /\ session_state (snd (request c w)) = session_state w
  /\ calls (snd (request c w)) = calls w ++ [c].
Proof.
  unfold request. simpl. destruct (faults w) as [|[] fs]; simpl; auto.
Qed.

Lemma apart_refl l t w : apart l t w w.
Proof. repeat split. Qed.

Lemma apart_same l t w0 w w' :
  config w' = config w -> session_state w' = session_state w ->
  drive w' = drive w -> apart l t w0 w -> apart l t w0 w'.
Proof.
  intros Hc Hs Hd (Hc0 & Hs0 & Hk). split; [congruence|]. split; [congruence|].
  intros l' t' Hne. unfold sheet. rewrite Hd. now apply Hk.
Qed.

Lemma keeps_request l t w0 c : keeps (apart l t w0) (request c).
Proof.
  intros w Hw. destruct (request_effect c w) as (Hc & Hd & _ & Hs & _).
  now apply (apart_same l t w0 w).
Qed.

Lemma keeps_st_message l t w0 m : keeps (apart l t w0) (st_message m).
Proof. intros w Hw. now apply (apart_same l t w0 w). Qed.

Lemma sheet_insert_ne w l t l' t' doc rows :
  drive w !! l = Some doc -> (l', t') <> (l, t) ->
  (doc' ← <[l := <[t := rows]> doc]> (drive w) !! l'; doc' !! t')
  = sheet w l' t'.
Proof.
  intros Hd Hne. unfold sheet.
  destruct (decide (l' = l)) as [->|Hl].
  - rewrite lookup_insert_eq, Hd. simpl.
    apply lookup_insert_ne. congruence.
  - now rewrite lookup_insert_ne.
Qed.

Lemma keeps_update_sheet ws f w0 :
  keeps (apart (h_doc ws) (h_title ws) w0) (update_sheet ws f).
Proof.
  intros w Hw. unfold update_sheet.
  destruct (drive w !! h_doc ws) as [doc|] eqn:Hd; [|exact Hw].
  destruct (doc !! h_title ws) as [rows|] eqn:Hr; [|exact Hw].
  simpl. destruct Hw as (Hc & Hs & Hk). split; [exact Hc|]. split; [exact Hs|].
  intros l t Hne. unfold sheet at 1. simpl.
  rewrite (sheet_insert_ne w _ _ _ _ _ _ Hd Hne). now apply Hk.
Qed.

Lemma keeps_append_row ws vals w0 :
  keeps (apart (h_doc ws) (h_title ws) w0) (append_row ws vals).
Proof.
  apply keeps_bind; [apply keeps_request|].
  intros _. apply keeps_update_sheet.
Qed.

Lemma keeps_clear ws w0 :
  keeps (apart (h_doc ws) (h_title ws) w0) (clear ws).
Proof.
  apply keeps_bind; [apply keeps_request|].
  intros _. apply keeps_update_sheet.
Qed.

Lemma keeps_write_projects ws projects w0 :
  keeps (apart (h_doc ws) (h_title ws) w0) (write_projects ws projects).
Proof.
  unfold write_projects.
  apply keeps_bind; [apply keeps_clear|]. intros _.
  apply keeps_bind; [apply keeps_append_row|]. intros _.
  apply keeps_bind; [|intros _; apply keeps_ret].
  destruct projects as [|p ps]; [apply keeps_ret|].
  apply keeps_for_each. intros x.
  apply keeps_bind; [apply keeps_lift|].
  intros cells. apply keeps_append_row.
Qed.

Lemma keeps_get_all_records `{F : SheetFormat} l t ws w0 :
  keeps (apart l t w0) (get_all_records ws).
Proof.
  apply keeps_bind; [apply keeps_request|]. intros _ w Hw.
  destruct (drive w !! h_doc ws) as [doc|]; [|exact Hw].
  destruct (doc !! h_title ws); exact Hw.
Qed.

Lemma sheet_put_table_ne w username rows l t :
  (l, t) <> (target w, username) ->
  (doc ← put_table w username rows !! l; doc !! t) = sheet w l t.
Proof.
  intros Hne. unfold put_table.
  destruct (drive w !! target w) as [doc|] eqn:Hd; [|reflexivity].
  now apply sheet_insert_ne.
Qed.

(** Resolving the handle leaves every other sheet, the configuration and
    the session state as they were, and the handle is the user's. *)
Lemma keeps_get_worksheet gc username w0 :
  hoare (apart (target w0) username w0) (get_worksheet gc username)
    (fun r w =>
       apart (target w0) username w0 w
       /\ exists ws, r = Ok ws
          /\ (forall h, ws = Some h -> h = Handle (target w0) username)).
Proof.
  intros w (Hc & Hs & Hk).
  assert (Ht : target w = target w0) by (unfold target; now rewrite Hc).
  destruct gc as [gc|].
  2:{ simpl. split; [exact (conj Hc (conj Hs Hk))|]. exists None.
      split; [reflexivity|]. discriminate. }
  destruct (get_worksheet_resolution gc username w)
    as (ws & w' & Hg & Hres & Hc' & Hs').
  rewrite Hg. simpl. split.
  - split; [congruence|]. split; [congruence|].
    intros l t Hne. rewrite <- Hk by exact Hne. rewrite <- Ht in Hne.
    unfold sheet at 1.
    destruct Hres as [rows w' _ Hd _|w' _ _ Hd _|e w' Hd _|w' _ _ Hd _];
      rewrite Hd; first [reflexivity | now apply sheet_put_table_ne].
  - exists ws. split; [reflexivity|]. intros h ->.
    inversion Hres; subst; now rewrite Ht.
Qed.

Lemma keeps_init_gsheets I : keeps I init_gsheets.
Proof.
  intros w Hw. destruct (init_gsheets_total w) as [gc ->]. exact Hw.
Qed.

Lemma keeps_load `{F : SheetFormat} username w0 :
  keeps (apart (target w0) username w0) (load_user_projects username).
Proof.
  unfold load_user_projects.
  apply keeps_bind; [apply keeps_init_gsheets|]. intros gc.
  eapply hoare_bind; [apply keeps_get_worksheet| |].
  - intros [ws|]; simpl.
    + intros w [Hw _]. revert w Hw.
      apply keeps_try; [apply keeps_get_all_records|].
      intros e. apply keeps_ret.
    + intros w [Hw _]. exact Hw.
  - intros e w [Hw _]. exact Hw.
Qed.

Lemma keeps_save username projects w0 :
  keeps (apart (target w0) username w0) (save_user_projects username projects).
Proof.
  unfold save_user_projects.
  apply keeps_bind; [apply keeps_init_gsheets|]. intros gc.
  eapply hoare_bind; [apply keeps_get_worksheet| |].
  - intros [ws|]; simpl.
    + intros w [Hw (ws' & [= <-] & Hh)]. rewrite (Hh ws eq_refl). revert w Hw.
      apply keeps_try.
      * apply (keeps_write_projects (Handle (target w0) username)).
      * intros e. apply keeps_bind; [apply keeps_st_message|].
        intros _. apply keeps_ret.
    + intros w [Hw _]. revert w Hw.
      apply keeps_bind; [apply keeps_st_message|]. intros _. apply keeps_ret.
  - intros e w [Hw _]. exact Hw.
Qed.

(** ** Requests that pass and requests that fail *)

Lemma request_pass c w fs :
  faults w = false :: fs -> request c w = (Ok tt, next w (drive w) [c] fs).
Proof. intros H. unfold request. simpl. now rewrite H. Qed.

Lemma request_fail c w fs :
  faults w = true :: fs ->
  request c w = (Raise APIError, next w (drive w) [c] fs).
Proof. intros H. unfold request. simpl. now rewrite H. Qed.

Lemma next_next w d cs fs d' cs' fs' :
  next (next w d cs fs) d' cs' fs' = next w d' (cs ++ cs') fs'.
Proof. unfold next; simpl. now rewrite app_assoc. Qed.

Lemma update_sheet_next ws f w doc rows :
  drive w !! h_doc ws = Some doc -> doc !! h_title ws = Some rows ->
  update_sheet ws f w
  = (Ok tt, next w (<[h_doc ws := <[h_title ws := f rows]> doc]> (drive w)) []
              (faults w)).
Proof.
  intros Hd Hr. unfold update_sheet. rewrite Hd, Hr.
  unfold next, set_drive. now rewrite app_nil_r.
Qed.

Lemma append_row_pass ws vals w fs doc rows :
  faults w = false :: fs ->
  drive w !! h_doc ws = Some doc -> doc !! h_title ws = Some rows ->
  append_row ws vals w
  = (Ok tt, next w (<[h_doc ws := <[h_title ws := rows ++ [vals]]> doc]> (drive w))
              [AppendRow (h_title ws) vals] fs).
Proof.
  intros Hq Hd Hr. unfold append_row, bind.
  rewrite (request_pass _ _ _ Hq).
  rewrite (update_sheet_next _ _ _ doc rows) by assumption.
  now rewrite next_next, app_nil_r.
Qed.

Lemma append_row_fail ws vals w fs :
  faults w = true :: fs ->
  append_row ws vals w
  = (Raise APIError, next w (drive w) [AppendRow (h_title ws) vals] fs).
Proof.
  intros Hq. unfold append_row, bind. now rewrite (request_fail _ _ _ Hq).
Qed.

Lemma clear_pass ws w fs doc rows :
  faults w = false :: fs ->
  drive w !! h_doc ws = Some doc -> doc !! h_title ws = Some rows ->
  clear ws w
  = (Ok tt, next w (<[h_doc ws := <[h_title ws := []]> doc]> (drive w))
              [Clear (h_title ws)] fs).
Proof.
  intros Hq Hd Hr. unfold clear, bind.
  rewrite (request_pass _ _ _ Hq).
  rewrite (update_sheet_next _ _ _ doc rows) by assumption.
  now rewrite next_next, app_nil_r.
Qed.

(** The handle of an existing sheet when the two requests pass. *)
Lemma get_worksheet_existing_pass w username doc rows fs :
  faults w = false :: false :: fs ->
  drive w !! target w = Some doc -> doc !! username = Some rows ->
  get_worksheet (Some GspreadClient) username w
  = (Ok (Some (Handle (target w) username)),
     next w (drive w) [open_call w; GetWorksheet username] fs).
Proof.
  intros Hq Hd Hr. destruct w as [cfg d f cs ms ss]. simpl in *. subst f.
  unfold target, open_call in *. simpl in *.
  unfold get_worksheet, try_except, bind at 1. simpl.
  destruct (String.eqb _ _);
    unfold open_by_name, open_by_url, worksheet, request, bind, try_except,
      ret; simpl; rewrite Hd; simpl; rewrite Hd, Hr;
    unfold next, set_faults, log_call; simpl; now rewrite <- app_assoc.
Qed.



Lemma for_each_fails ws (i : nat) :
  forall projects w doc rows fs,
    (i < length projects)%nat -> Forall has_fields projects ->
    faults w = replicate i false ++ true :: fs ->
    drive w !! h_doc ws = Some doc -> doc !! h_title ws = Some rows ->
    exists cs,
      for_each projects (fun project =>
        bind (lift (project_cells project HEADER))
             (fun cells => append_row ws cells)) w
      = (Raise APIError,
         next w (<[h_doc ws := <[h_title ws := rows ++ map row_of (take i projects)]> doc]>
                   (drive w)) cs fs).
Proof.
  induction i as [|i IH]; intros projects w doc rows fs Hi Hf Hq Hd Hr;
    destruct projects as [|p ps]; simpl in Hi; try lia;
    inversion Hf as [|? ? Hp Hps]; subst.
  - cbn [for_each]. unfold bind at 1. unfold bind at 1, lift at 1.
    rewrite (project_cells_row _ Hp).
    rewrite (append_row_fail _ _ _ fs) by exact Hq.
    eexists. simpl take. simpl map. rewrite app_nil_r.
    rewrite (insert_id doc), (insert_id (drive w)) by assumption.
    reflexivity.
  - cbn [for_each]. unfold bind at 1. unfold bind at 1, lift at 1.
    rewrite (project_cells_row _ Hp).
    rewrite (append_row_pass _ _ _ (replicate i false ++ true :: fs) doc rows)
      by assumption.
    destruct (IH ps
                (next w (<[h_doc ws := <[h_title ws := rows ++ [row_of p]]> doc]> (drive w))
                   [AppendRow (h_title ws) (row_of p)]
                   (replicate i false ++ true :: fs))
                (<[h_title ws := rows ++ [row_of p]]> doc)
                (rows ++ [row_of p]) fs) as [cs Hcs];
      [lia | assumption | reflexivity | simpl; apply lookup_insert_eq
      | apply lookup_insert_eq |].
    rewrite Hcs. rewrite next_next. simpl drive.
    eexists. rewrite !insert_insert_eq, <- app_assoc. reflexivity.
Qed.

Lemma clear_fail ws w fs :
  faults w = true :: fs ->
  clear ws w = (Raise APIError, next w (drive w) [Clear (h_title ws)] fs).
Proof.
  intros Hq. unfold clear, bind. now rewrite (request_fail _ _ _ Hq).
Qed.

Lemma open_target_pass w doc fs :
  faults w = false :: fs -> drive w !! target w = Some doc ->
  (if String.eqb (default EmptyString (spreadsheet_url (config w))) EmptyString
   then open_by_name GspreadClient "RICE Calculator Data"
   else open_by_url GspreadClient (default EmptyString (spreadsheet_url (config w)))) w
  = (Ok (target w), next w (drive w) [open_call w] fs).
Proof.
  intros Hq Hd. unfold target, open_call in *.
  destruct (String.eqb _ _); unfold open_by_name, open_by_url, bind;
    rewrite (request_pass _ _ _ Hq); cbn [drive next]; now rewrite Hd.
Qed.

Lemma worksheet_pass sh title w doc fs :
  faults w = false :: fs -> drive w !! sh = Some doc ->
  worksheet sh title w
  = (match doc !! title with
     | Some _ => Ok (Handle sh title)
     | None => Raise WorksheetNotFound
     end, next w (drive w) [GetWorksheet title] fs).
Proof.
  intros Hq Hd. unfold worksheet, bind. rewrite (request_pass _ _ _ Hq).
  cbn [drive next]. rewrite Hd. now destruct (doc !! title).
Qed.

Lemma add_worksheet_pass sh title w doc fs :
  faults w = false :: fs -> drive w !! sh = Some doc -> doc !! title = None ->
  add_worksheet sh title w
  = (Ok (Handle sh title),
     next w (<[sh := <[title := []]> doc]> (drive w)) [AddWorksheet title] fs).
Proof.
  intros Hq Hd Hn. unfold add_worksheet, bind. rewrite (request_pass _ _ _ Hq).
  cbn [drive next]. now rewrite Hd, Hn.
Qed.

(** The handle of a sheet that does not exist yet when the four requests
    pass. *)
Lemma get_worksheet_missing_pass w username doc fs :
  faults w = false :: false :: false :: false :: fs ->
  drive w !! target w = Some doc -> doc !! username = None ->
  get_worksheet (Some GspreadClient) username w
  = (Ok (Some (Handle (target w) username)),
     next w (<[target w := <[username := [header_row]]> doc]> (drive w))
       [open_call w; GetWorksheet username; AddWorksheet username;
        AppendRow username header_row] fs).
Proof.
  intros Hq Hd Hr. unfold get_worksheet, try_except, bind at 1.
  rewrite (open_target_pass _ _ _ Hq Hd).
  unfold bind, try_except.
  rewrite (worksheet_pass _ _ _ doc (false :: false :: fs)) by easy.
  rewrite Hr.
  rewrite (add_worksheet_pass _ _ _ doc (false :: fs)) by easy.
  rewrite (append_row_pass _ _ _ fs (<[username := []]> doc) [])
    by first [reflexivity | apply lookup_insert_eq].
  unfold ret. rewrite !next_next. cbn [drive next h_doc h_title app].
  now rewrite !insert_insert_eq.
Qed.

(** The sheet is added and the request that writes its header fails. *)
Lemma get_worksheet_header_fails w username doc fs :
  faults w = false :: false :: false :: true :: fs ->
  drive w !! target w = Some doc -> doc !! username = None ->
  get_worksheet (Some GspreadClient) username w
  = (Ok None,
     post_message (ErrAccessingSheets APIError)
       (next w (<[target w := <[username := []]> doc]> (drive w))
          [open_call w; GetWorksheet username; AddWorksheet username;
           AppendRow username header_row] fs)).
Proof.
  intros Hq Hd Hr. unfold get_worksheet, try_except, bind at 1.
  rewrite (open_target_pass _ _ _ Hq Hd).
  unfold bind, try_except.
  rewrite (worksheet_pass _ _ _ doc (false :: true :: fs)) by easy.
  rewrite Hr.
  rewrite (add_worksheet_pass _ _ _ doc (true :: fs)) by easy.
  rewrite (append_row_fail _ _ _ fs) by reflexivity.
  unfold st_message, ret. now rewrite !next_next.
Qed.

Lemma get_worksheet_pass w username fs :
  reachable w ->
  faults w = replicate (length (resolve_calls w username)) false ++ fs ->
  get_worksheet (Some GspreadClient) username w
  = (Ok (Some (Handle (target w) username)),
     next w (put_table w username (default [header_row] (user_table w username)))
       (resolve_calls w username) fs).
Proof.
  intros [_ [doc Hd]]. unfold resolve_calls.
  rewrite (user_table_doc _ _ _ Hd).
  destruct (doc !! username) as [rows|] eqn:Hr; intros Hq;
    cbn [length replicate app] in Hq.
  - rewrite (get_worksheet_existing_pass _ _ _ _ _ Hq Hd Hr).
    change (default [header_row] (Some rows)) with rows.
    now rewrite (put_table_same _ _ _ _ Hd Hr).
  - rewrite (get_worksheet_missing_pass _ _ _ _ Hq Hd Hr).
    change (default [header_row] None) with [header_row].
    unfold put_table. now rewrite Hd.
Qed.

Lemma write_projects_interrupted ws projects k :
  forall w doc rows fs,
    Forall has_fields projects -> (k < 2 + length projects)%nat ->
    faults w = replicate k false ++ true :: fs ->
    drive w !! h_doc ws = Some doc -> doc !! h_title ws = Some rows ->
    exists cs,
      write_projects ws projects w
      = (Raise APIError,
         next w (<[h_doc ws := <[h_title ws := written_before k rows projects]> doc]>
                   (drive w)) cs fs).
Proof.
  intros w doc rows fs Hf Hk Hq Hd Hr. unfold write_projects, bind at 1.
  destruct k as [|[|i]]; simpl in Hq.
  - rewrite (clear_fail _ _ _ Hq). eexists. simpl.
    rewrite (insert_id doc), (insert_id (drive w)) by assumption.
    reflexivity.
  - rewrite (clear_pass _ _ _ doc rows Hq Hd Hr). unfold bind at 1.
    erewrite append_row_fail by reflexivity.
    rewrite next_next. eexists. reflexivity.
  - rewrite (clear_pass _ _ _ doc rows Hq Hd Hr). unfold bind at 1.
    rewrite (append_row_pass _ _ _ (replicate i false ++ true :: fs)
               (<[h_title ws := []]> doc) [])
      by (simpl; first [reflexivity | apply lookup_insert_eq]).
    rewrite next_next. simpl drive. simpl app at 1. unfold bind at 1.
    assert (Hloop :
      (match projects with
       | [] => ret tt
       | _ :: _ => for_each projects (fun project =>
           bind (lift (project_cells project HEADER)) (fun cells => append_row ws cells))
       end) = for_each projects (fun project =>
           bind (lift (project_cells project HEADER)) (fun cells => append_row ws cells)))
      by now destruct projects.
    rewrite Hloop.
    destruct (for_each_fails ws i projects
                (next w (<[h_doc ws := <[h_title ws := [header_row]]>
                                         (<[h_title ws := []]> doc)]>
                           (<[h_doc ws := <[h_title ws := []]> doc]> (drive w)))
                   ([Clear (h_title ws)] ++ [AppendRow (h_title ws) header_row])
                   (replicate i false ++ true :: fs))
                (<[h_title ws := [header_row]]> (<[h_title ws := []]> doc))
                [header_row] fs) as [cs Hcs];
      [lia | assumption | reflexivity | simpl; apply lookup_insert_eq
      | apply lookup_insert_eq |].
    rewrite Hcs, next_next. simpl drive.
    eexists. rewrite !insert_insert_eq. reflexivity.
Qed.

(** X5.  A save is not atomic.  On a reachable store, when the requests
    pass up to the [k]-th write request of the save (the clearing is number
    0, the header number 1, the projects follow in order) and that request
    fails, the save returns False and shows the error, and the table stays
    as the writes before the failure left it: as it was when the clearing
    failed, empty when the header failed, and else the header and the rows
    of the first [k - 2] projects. *)
Theorem save_interrupted username projects w k fs :
  reachable w -> Forall has_fields projects ->
  (k < 2 + length projects)%nat ->
  faults w = replicate (length (resolve_calls w username) + k) false
               ++ true :: fs ->
  exists w',
    save_user_projects username projects w = (Ok false, w')
    /\ drive w' = put_table w username
                    (written_before k
                       (default [header_row] (user_table w username)) projects)
    /\ messages w' = messages w ++ [ErrSaving APIError]
    /\ faults w' = fs.
Proof.
  intros Hr Hf Hk Hq. pose proof Hr as [Hc [doc Hd]].
  rewrite replicate_add, <- app_assoc in Hq.
  unfold save_user_projects, bind at 1.
  rewrite (init_gsheets_configured _ Hc). unfold bind at 1.
  rewrite (get_worksheet_pass _ _ _ Hr Hq). unfold try_except.
  set (rows := default [header_row] (user_table w username)).
  destruct (write_projects_interrupted (Handle (target w) username) projects k
              (next w (put_table w username rows) (resolve_calls w username)
                 (replicate k false ++ true :: fs))
              (<[username := rows]> doc) rows fs) as [cs Hcs];
    [assumption | assumption | reflexivity
    | simpl; unfold put_table; rewrite Hd; apply lookup_insert_eq
    | simpl; apply lookup_insert_eq |].
  rewrite Hcs. eexists. split; [reflexivity|]. simpl.
  split; [|split; reflexivity].
  unfold put_table. rewrite Hd. now rewrite !insert_insert_eq.
Qed.

(** ** What a load and a save leave alone *)

(** X1.  Whatever the service does, a load for a user leaves every sheet
    but that user's sheet of the target document as it was, in every
    document, and leaves the configuration and the session state alone. *)
Theorem load_leaves_other_sheets `{F : SheetFormat} username w :
  let w' := snd (load_user_projects username w) in
  config w' = config w
  /\ session_state w' = session_state w
  /\ forall l t, (l, t) <> (target w, username) -> sheet w' l t = sheet w l t.
Proof. exact (keeps_load username w w (apart_refl _ _ w)). Qed.

(** X2.  Whatever the service does and whatever the projects are, a save
    for a user leaves every sheet but that user's sheet of the target
    document as it was, and leaves the configuration and the session state
    alone. *)
Theorem save_leaves_other_sheets username projects w :
  let w' := snd (save_user_projects username projects w) in
  config w' = config w
  /\ session_state w' = session_state w
  /\ forall l t, (l, t) <> (target w, username) -> sheet w' l t = sheet w l t.
Proof. exact (keeps_save username projects w w (apart_refl _ _ w)). Qed.

(** X3.  With a client, resolving a user's worksheet never raises, and
    whatever the requests do one of four things has happened: the sheet
    existed and its handle is returned with the drive untouched; the sheet
    did not exist, was created with the header row and its handle is
    returned; no handle is returned, the drive is untouched and one error
    message was shown; or no handle is returned, one error message was
    shown and the sheet was created without a header row.  A handle is
    returned without any message. *)
Theorem get_worksheet_outcomes gc username w :
  exists ws w',
    get_worksheet (Some gc) username w = (Ok ws, w')
    /\ resolution w username ws w'.
Proof.
  destruct (get_worksheet_resolution gc username w) as (ws & w' & Hg & Hr & _).
  now exists ws, w'.
Qed.

Lemma get_all_records_drive `{F : SheetFormat} ws w :
  drive (snd (get_all_records ws w)) = drive w.
Proof.
  unfold get_all_records, bind.
  destruct (request_effect (GetAllRecords (h_title ws)) w) as (_ & Hd & _).
  destruct (request _ w) as [[[]|e] w1]; simpl in *; [|exact Hd].
  destruct (drive w1 !! h_doc ws) as [doc|]; [|exact Hd].
  destruct (doc !! h_title ws); exact Hd.
Qed.

(** X4.  Whatever the service does, a load never changes a table that
    exists; for a user without a table it leaves the drive as it was, or
    adds the user's table with the header row, or adds it empty. *)
Theorem load_store_effect `{F : SheetFormat} username w :
  let w' := snd (load_user_projects username w) in
  match user_table w username with
  | Some _ => drive w' = drive w
  | None =>
      drive w' = drive w
      \/ drive w' = put_table w username [header_row]
      \/ drive w' = put_table w username []
  end.
Proof.
  intros w'. subst w'.
  destruct (init_gsheets_total w) as [[gc|] Hi].
  2:{ unfold load_user_projects, bind. rewrite Hi. simpl.
      destruct (user_table w username); auto. }
  destruct (get_worksheet_resolution gc username w)
    as (ws & w1 & Hg & Hres & _).
  rewrite (load_unfold _ _ _ _ _ _ Hi Hg).
  assert (Hd : drive (snd (match ws with
                           | None => (Ok [], w1)
                           | Some ws =>
                               match get_all_records ws w1 with
                               | (Ok records, w2) => (Ok records, w2)
                               | (Raise _, w2) => (Ok [], w2)
                               end
                           end)) = drive w1).
  { destruct ws as [h|]; [|reflexivity].
    pose proof (get_all_records_drive h w1) as Hr.
    destruct (get_all_records h w1) as [[records|e] w2]; exact Hr. }
  rewrite Hd.
  destruct Hres as [rows w1 Ht Hw _|w1 Ht _ Hw _|e w1 Hw _|w1 Ht _ Hw _];
    rewrite ?Ht, Hw; auto.
  destruct (user_table w username); auto.
Qed.

(** ** Failures part way *)

Lemma failing_at_reachable n : reachable (failing_at n).
Proof.
  split; [reflexivity|].
  change (target (failing_at n)) with (ByName "RICE Calculator Data").
  unfold failing_at. cbn [drive]. rewrite lookup_singleton_eq. eauto.
Qed.

Lemma failing_at_table n :
  user_table (failing_at n) "Rolf" = Some [header_row; row_of dark_mode].
Proof.
  unfold user_table.
  change (target (failing_at n)) with (ByName "RICE Calculator Data").
  unfold failing_at. cbn [drive]. rewrite lookup_singleton_eq. cbn [mbind option_bind].
  apply lookup_singleton_eq.
Qed.

Lemma save_interrupted_witness :
  exists w',
    save_user_projects "Rolf" [project_2024; dark_mode] (failing_at 5)
    = (Ok false, w')
    /\ drive w' = put_table (failing_at 5) "Rolf"
                    [header_row; row_of project_2024]
    /\ messages w' = [ErrSaving APIError].
Proof.
  assert (Hf : Forall has_fields [project_2024; dark_mode])
    by (repeat constructor; apply is_project_has_fields, dict_is_project).
  assert (Hq : faults (failing_at 5)
               = replicate (length (resolve_calls (failing_at 5) "Rolf") + 3) false
                   ++ [true])
    by (unfold resolve_calls; rewrite failing_at_table; reflexivity).
  destruct (save_interrupted "Rolf" [project_2024; dark_mode] (failing_at 5) 3 []
              (failing_at_reachable 5) Hf ltac:(simpl; lia) Hq)
    as (w' & Hs & Hd & Hm & _).
  exists w'. split; [exact Hs|]. split; [|exact Hm].
  rewrite Hd, failing_at_table. reflexivity.
Defined.




(** X7.  Creating a user's table can stop half way.  On a reachable store
    where the user has no table, if the request that writes the header
    fails after the sheet was added, the load returns no records, shows one
    error and leaves the new sheet in the document without a header row. *)
Theorem load_interrupted_creation `{F : SheetFormat} username w fs :
  reachable w -> user_table w username = None ->
  faults w = false :: false :: false :: true :: fs ->
  exists w',
    load_user_projects username w = (Ok [], w')
    /\ drive w' = put_table w username []
    /\ user_table w' username = Some []
    /\ messages w' = messages w ++ [ErrAccessingSheets APIError]
    /\ faults w' = fs.
Proof.
  intros [Hc [doc Hd]] Ht Hq.
  assert (Hn : doc !! username = None).
  { unfold user_table in Ht. now rewrite Hd in Ht. }
  unfold load_user_projects, bind at 1.
  rewrite (init_gsheets_configured _ Hc). unfold bind at 1.
  rewrite (get_worksheet_header_fails _ _ _ _ Hq Hd Hn).
  eexists. split; [reflexivity|]. cbn [drive messages faults post_message next].
  split; [unfold put_table; now rewrite Hd|].
  split; [|split; reflexivity].
  unfold user_table.
  change (target (post_message ?m (next w ?d ?cs ?f))) with (target w).
  cbn [drive post_message next]. rewrite lookup_insert_eq. cbn [mbind option_bind].
  apply lookup_insert_eq.
Qed.

Lemma load_interrupted_creation_witness :
  exists w',
    load_user_projects (F := plain_format) "Rolf"
      (set_faults [false; false; false; true] fresh_store) = (Ok [], w')
    /\ user_table w' "Rolf" = Some [].
Proof.
  destruct (load_interrupted_creation (F := plain_format) "Rolf"
              (set_faults [false; false; false; true] fresh_store) []
              fresh_store_reachable ltac:(vm_compute; reflexivity) eq_refl)
    as (w' & Hl & _ & Ht & _).
  exists w'. split; [exact Hl | exact Ht].
Defined.

Lemma project_cells_missing project k keys :
  List.find (fun k => bool_decide (project !! k = None)) keys = Some k ->
  project_cells project keys = Raise (KeyError k).
Proof.
  induction keys as [|k0 keys IH]; [discriminate|].
  cbn [List.find project_cells]. unfold getitem.
  destruct (project !! k0) as [v|] eqn:Hk.
  - rewrite bool_decide_eq_false_2 by discriminate.
    intros Hfind. cbn [rbind]. now rewrite (IH Hfind).
  - rewrite bool_decide_eq_true_2 by reflexivity. now intros [= ->].
Qed.

Lemma for_each_app {A} (xs ys : list A) body w :
  for_each (xs ++ ys) body w = bind (for_each xs body) (fun _ => for_each ys body) w.
Proof.
  revert w. induction xs as [|x xs IH]; intros w; [reflexivity|].
  cbn [for_each app]. unfold bind.
  destruct (body x w) as [[[]|e] w1]; [|reflexivity].
  rewrite IH. reflexivity.
Qed.

(** X8.  A record without one of the six fields stops the save where it
    stands.  On a reachable store whose requests succeed, the table is
    cleared, the header and the rows of the records before the incomplete
    one are written, the records after it are not, and the save reports
    failure with the error of the first missing column. *)
Theorem save_missing_field username before project rest k w :
  reachable w -> faults w = [] -> Forall has_fields before ->
  missing_field project = Some k ->
  exists w',
    save_user_projects username (before ++ project :: rest) w = (Ok false, w')
    /\ drive w' = put_table w username (header_row :: map row_of before)
    /\ messages w' = messages w ++ [ErrSaving (KeyError k)].
Proof.
  intros Hr Hq Hf Hk. pose proof Hr as [Hc [doc Hd]].
  apply project_cells_missing in Hk.
  unfold save_user_projects, bind at 1.
  rewrite (init_gsheets_configured _ Hc). unfold bind at 1.
  rewrite (get_worksheet_quiet _ _ Hr Hq). unfold try_except.
  set (rows := default [header_row] (user_table w username)).
  set (w1 := after w (put_table w username rows) (resolve_calls w username)).
  assert (Hd1 : drive w1 !! target w = Some (<[username := rows]> doc)).
  { simpl. unfold put_table. rewrite Hd. apply lookup_insert_eq. }
  unfold write_projects, bind at 1.
  rewrite (clear_quiet (Handle (target w) username) w1 _ rows Hq Hd1) by (simpl; apply lookup_insert_eq).
  unfold bind at 1.
  rewrite (append_row_quiet (Handle (target w) username) _ _ (<[username := []]> (<[username := rows]> doc)) [])
    by first [exact Hq | simpl; apply lookup_insert_eq].
  rewrite after_after. cbn [drive after h_doc h_title app]. unfold bind at 1.
  assert (Hloop :
    (match before ++ project :: rest with
     | [] => ret tt
     | _ :: _ => for_each (before ++ project :: rest) (fun project =>
         bind (lift (project_cells project HEADER))
              (fun cells => append_row (Handle (target w) username) cells))
     end) = for_each (before ++ project :: rest) (fun project =>
         bind (lift (project_cells project HEADER))
              (fun cells => append_row (Handle (target w) username) cells)))
    by now destruct before.
  rewrite Hloop, for_each_app. unfold bind at 1.
  erewrite (for_each_append (Handle (target w) username) before Hf);
    [| exact Hq | simpl; apply lookup_insert_eq | apply lookup_insert_eq].
  cbn [for_each]. unfold bind at 1. unfold bind at 1, lift at 1. rewrite Hk.
  eexists. split; [reflexivity|]. split; [|reflexivity].
  cbn [drive post_message after h_doc h_title].
  unfold put_table. rewrite Hd. rewrite !insert_insert_eq.
  subst w1. cbn [drive after app]. unfold put_table. rewrite Hd.
  now rewrite insert_insert_eq.
Qed.

Lemma save_missing_field_witness :
  exists w',
    save_user_projects "Rolf" [dark_mode; name_only; project_2024]
      fresh_store = (Ok false, w')
    /\ drive w' = put_table fresh_store "Rolf" [header_row; row_of dark_mode]
    /\ messages w' = [ErrSaving (KeyError "Reach (%)")].
Proof.
  assert (Hf : Forall has_fields [dark_mode])
    by (repeat constructor; apply is_project_has_fields, dict_is_project).
  destruct (save_missing_field "Rolf" [dark_mode]
              name_only [project_2024] "Reach (%)"
              fresh_store fresh_store_reachable eq_refl Hf
              ltac:(vm_compute; reflexivity))
    as (w' & Hs & Hd & Hm).
  exists w'. split; [exact Hs|]. split; [exact Hd|exact Hm].
Defined.




(** ** Loads and saves in sequence *)

(** X10.  Loading twice gives the same.  On a reachable store whose
    requests succeed a second load returns the records of the first and
    leaves the drive as the first left it. *)
Theorem load_twice `{F : SheetFormat} username w :
  reachable w -> faults w = [] ->
  exists records w1 w2,
    load_user_projects username w = (Ok records, w1)
    /\ load_user_projects username w1 = (Ok records, w2)
    /\ drive w2 = drive w1.
Proof.
  intros Hr Hq. set (rows := default [header_row] (user_table w username)).
  set (w1 := after w (put_table w username rows)
               (resolve_calls w username ++ [GetAllRecords username])).
  assert (Hr1 : reachable w1) by now apply reachable_after.
  assert (Ht1 : user_table w1 username = Some rows)
    by now apply user_table_after.
  exists (records_of_sheet rows), w1. eexists.
  split; [exact (load_quiet w username Hr Hq)|].
  rewrite (load_quiet w1 username Hr1 Hq), Ht1.
  change (default [header_row] (Some rows)) with rows.
  split; [reflexivity|]. cbn [drive after]. apply put_table_after.
Qed.

Lemma load_twice_witness :
  exists records w1 w2,
    load_user_projects (F := plain_format) "Rolf" fresh_store = (Ok records, w1)
    /\ load_user_projects (F := plain_format) "Rolf" w1 = (Ok records, w2)
    /\ drive w2 = drive w1.
Proof.
  exact (load_twice (F := plain_format) "Rolf" fresh_store
           fresh_store_reachable eq_refl).
Defined.

(** X11.  Users do not see each other's saves.  On a reachable store whose
    requests succeed, after a save for one user a load for another user
    returns the records it would have returned before the save. *)
Theorem other_user_unaffected_by_save `{F : SheetFormat} username other projects w :
  reachable w -> faults w = [] -> Forall has_fields projects ->
  other <> username ->
  exists w1,
    save_user_projects username projects w = (Ok true, w1)
    /\ fst (load_user_projects other w1) = fst (load_user_projects other w).
Proof.
  intros Hr Hq Hf Hne. eexists. split; [exact (save_quiet w username projects Hr Hq Hf)|].
  rewrite (load_quiet w other Hr Hq).
  rewrite load_quiet; [|now apply reachable_after|exact Hq].
  cbn [fst]. now rewrite user_table_after_ne.
Qed.

Lemma other_user_unaffected_by_save_witness :
  exists w1,
    save_user_projects "Rolf" [dark_mode] (set_faults [] (failing_at 0)) = (Ok true, w1)
    /\ fst (load_user_projects (F := plain_format) "Sam" w1)
       = fst (load_user_projects (F := plain_format) "Sam" (set_faults [] (failing_at 0))).
Proof.
  assert (Hf : Forall has_fields [dark_mode])
    by (repeat constructor; apply is_project_has_fields, dict_is_project).
  exact (other_user_unaffected_by_save (F := plain_format) "Rolf" "Sam" [dark_mode]
           (set_faults [] (failing_at 0)) (failing_at_reachable 0) eq_refl Hf
           ltac:(discriminate)).
Defined.

(** ** What a run of the script leaves alone *)

Lemma frame_refl username w : frame username w w.
Proof. repeat split. Qed.

Lemma frame_apart username w0 w w' :
  frame username w0 w -> apart (target w) username w w' -> frame username w0 w'.
Proof.
  intros (Hc & Hs & Hk) (Hc' & Hs' & Hk').
  assert (Ht : target w = target w0) by (unfold target; now rewrite Hc).
  split; [congruence|]. split.
  - intros k Hne. rewrite Hs'. now apply Hs.
  - intros l t Hne. rewrite Hk' by (now rewrite Ht). now apply Hk.
Qed.

Lemma frame_load `{F : SheetFormat} username w0 :
  keeps (frame username w0) (load_user_projects username).
Proof.
  intros w Hw. apply (frame_apart username w0 w _ Hw).
  exact (keeps_load username w w (apart_refl _ _ w)).
Qed.

Lemma frame_save username projects w0 :
  keeps (frame username w0) (save_user_projects username projects).
Proof.
  intros w Hw. apply (frame_apart username w0 w _ Hw).
  exact (keeps_save username projects w w (apart_refl _ _ w)).
Qed.

Lemma frame_st_message username w0 m :
  keeps (frame username w0) (st_message m).
Proof. intros w Hw. exact Hw. Qed.

Lemma frame_set_session username w0 v :
  keeps (frame username w0)
    (fun w => (Ok tt, set_session (session_key username) v w)).
Proof.
  intros w (Hc & Hs & Hk). split; [exact Hc|]. split; [|exact Hk].
  intros k Hne. cbn [snd session_state set_session].
  rewrite lookup_insert_ne by congruence. now apply Hs.
Qed.

Lemma frame_add_action `{F : SheetFormat} ui w0 :
  keeps (frame (selected_user ui) w0) (add_action ui).
Proof.
  unfold add_action. destruct (add_clicked ui); [|apply keeps_ret].
  destruct (negb _).
  2:{ apply keeps_bind; [apply frame_st_message|]. intros _. apply keeps_ret. }
  apply keeps_bind; [apply keeps_lift|]. intros confidence_decimal.
  apply keeps_bind; [apply keeps_lift|]. intros rice_score.
  apply keeps_bind; [apply frame_load|]. intros user_projects.
  apply keeps_bind; [apply keeps_lift|]. intros rounded. cbv zeta.
  apply keeps_bind; [apply frame_save|]. intros [].
  - apply keeps_bind; [apply frame_st_message|]. intros _.
    apply keeps_bind; [apply frame_set_session|]. intros _. apply keeps_ret.
  - apply keeps_bind; [apply frame_st_message|]. intros _. apply keeps_ret.
Qed.

Lemma frame_main_area `{F : SheetFormat} `{D : Display} ui w0 :
  keeps (frame (selected_user ui) w0) (main_area ui).
Proof.
  unfold main_area.
  apply keeps_bind; [apply frame_load|]. intros user_projects.
  apply keeps_bind; [apply frame_set_session|]. intros _.
  destruct user_projects as [|p ps].
  { apply keeps_bind; [apply frame_st_message|]. intros _. apply keeps_ret. }
  apply keeps_bind; [apply keeps_lift|]. intros _.
  destruct (clear_clicked ui); [|apply keeps_ret].
  apply keeps_bind; [apply frame_save|]. intros [].
  - apply keeps_bind; [apply frame_set_session|]. intros _. apply keeps_ret.
  - apply keeps_bind; [apply frame_st_message|]. intros _. apply keeps_ret.
Qed.

Lemma frame_main `{F : SheetFormat} `{D : Display} ui w0 :
  keeps (frame (selected_user ui) w0) (main ui).
Proof.
  unfold main.
  apply keeps_bind; [apply keeps_init_gsheets|]. intros gc.
  apply keeps_bind; [apply frame_st_message|]. intros _.
  apply keeps_bind; [apply frame_add_action|]. intros [].
  - apply frame_main_area.
  - apply keeps_ret.
Qed.

(** X12.  One interaction of a user with the script (a run and the rerun it
    asks for), whatever the widgets hold, whatever the drawing does and
    whatever the service does, leaves the tables of the other users and
    all other documents as they were, as well as the configuration and the
    session entries of the other users. *)
Theorem interaction_leaves_other_users `{F : SheetFormat} `{D : Display} ui w :
  let w' := snd (interaction ui w) in
  config w' = config w
  /\ (forall k, k <> session_key (selected_user ui) ->
        session_state w' !! k = session_state w !! k)
  /\ forall l t,
       (l, t) <> (target w, selected_user ui) -> sheet w' l t = sheet w l t.
Proof.
  assert (H : keeps (frame (selected_user ui) w) (interaction ui)).
  { unfold interaction. apply keeps_bind; [apply frame_main|]. intros [].
    - apply keeps_ret.
    - exact (frame_main (release ui) w). }
  exact (H w (frame_refl _ w)).
Qed.

(** ** The client and the opening request *)


Lemma get_worksheet_open_fails gc username w fs :
  faults w = true :: fs ->
  get_worksheet (Some gc) username w
  = (Ok None,
     post_message (ErrAccessingSheets APIError) (next w (drive w) [open_call w] fs)).
Proof.
  intros Hq. unfold get_worksheet, try_except, bind at 1. unfold open_call.
  destruct (String.eqb _ _); unfold open_by_name, open_by_url, bind;
    now rewrite (request_fail _ _ _ Hq).
Qed.

(** X14.  A save whose first request fails reports success.  With
    credentials, when the request that opens the document fails, the save
    shows the access error and the warning that the store is not
    configured, returns True and writes nothing. *)
Theorem save_when_open_fails username projects w fs :
  gcp_service_account (config w) = Some WellFormedInfo ->
  faults w = true :: fs ->
  exists w',
    save_user_projects username projects w = (Ok true, w')
    /\ drive w' = drive w
    /\ calls w' = calls w ++ [open_call w]
    /\ messages w'
       = messages w ++ [ErrAccessingSheets APIError; WarnNotConfigured].
Proof.
  intros Hc Hq.
  rewrite (save_unfold _ _ w _ _ _ _ (init_gsheets_configured _ Hc)
             (get_worksheet_open_fails GspreadClient username w fs Hq)).
  eexists. split; [reflexivity|]. cbn [drive calls messages post_message next].
  split; [reflexivity|]. split; [reflexivity|].
  now rewrite <- app_assoc.
Qed.

Lemma save_when_open_fails_witness :
  exists w',
    save_user_projects "Rolf" [project_2024] (failing_at 0) = (Ok true, w')
    /\ drive w' = drive (failing_at 0)
    /\ messages w' = [ErrAccessingSheets APIError; WarnNotConfigured].
Proof.
  destruct (save_when_open_fails "Rolf" [project_2024] (failing_at 0) []
              eq_refl eq_refl) as (w' & Hs & Hd & _ & Hm).
  exists w'. split; [exact Hs|]. split; [exact Hd | exact Hm].
Defined.

(** ** Scores that are zero *)

(** Zero divided by an effort of at least 0.1 is zero. *)
Lemma div_zero_by_effort e :
  PrimFloat.leb 0x1.999999999999ap-4 e = true -> PrimFloat.div 0 e = 0%float.
Proof.
  intros H. apply Prim2SF_inj. rewrite FloatAxioms.div_spec.
  rewrite FloatAxioms.leb_spec in H.
  destruct (Prim2SF e) as [s|s| |s m x]; try destruct s;
    try (vm_compute in H; discriminate H); reflexivity.
Qed.

Lemma zero_reach_product :
  Forall (fun impact =>
    Forall (fun c =>
      PrimFloat.mul (PrimFloat.mul (Z_to_float 0) (num_float impact))
        (PrimFloat.div (Z_to_float c) 100) = 0%float) reach_range)
    impact_options.
Proof.
  unfold reach_range, impact_options.
  repeat (apply Forall_cons; split;
          [ repeat (apply Forall_cons; split; [vm_compute; reflexivity|]);
            apply Forall_nil_2
          | ]).
  apply Forall_nil_2.
Qed.

Lemma zero_confidence_product :
  Forall (fun reach =>
    Forall (fun impact =>
      PrimFloat.mul (PrimFloat.mul (Z_to_float reach) (num_float impact))
        (PrimFloat.div (Z_to_float 0) 100) = 0%float) impact_options)
    reach_range.
Proof.
  unfold reach_range, impact_options.
  repeat (apply Forall_cons; split;
          [ repeat (apply Forall_cons; split; [vm_compute; reflexivity|]);
            apply Forall_nil_2
          | ]).
  apply Forall_nil_2.
Qed.

(** X15.  With valid inputs, a reach of 0 or a confidence of 0 gives the
    score 0.0: dividing the confidence by 100, scoring and rounding to two
    decimals raise nothing and return the float zero, whatever the impact
    and the effort. *)
Theorem zero_reach_or_confidence ui :
  valid_inputs ui -> reach ui = 0 \/ confidence ui = 0 ->
  rbind (py_truediv (PyInt (confidence ui)) (PyInt 100))
    (fun confidence_decimal =>
       rbind (calculate_rice_score (PyInt (reach ui)) (impact ui)
                confidence_decimal (PyFloat (effort ui)))
         py_round2)
  = Ok (PyFloat 0).
Proof.
  intros Hv H0. pose proof (valid_score ui Hv) as Hs.
  destruct Hv as (Hr & Hi & Hc & He & _).
  destruct (py_truediv (PyInt (confidence ui)) (PyInt 100)) as [cd|e];
    [|discriminate]. cbn [rbind] in *. rewrite Hs. cbn [rbind].
  assert (Hz : rice_formula ui = 0%float).
  { unfold rice_formula. destruct H0 as [H0|H0]; rewrite H0.
    - pose proof zero_reach_product as HF.
      rewrite Forall_forall in HF. specialize (HF _ Hi).
      rewrite Forall_forall in HF. rewrite (HF _ (reach_in_range _ Hc)).
      now apply div_zero_by_effort.
    - pose proof zero_confidence_product as HF.
      rewrite Forall_forall in HF. specialize (HF _ (reach_in_range _ Hr)).
      rewrite Forall_forall in HF. rewrite (HF _ Hi).
      now apply div_zero_by_effort. }
  rewrite Hz. reflexivity.
Qed.

Lemma zero_reach_or_confidence_witness :
  rbind (py_truediv (PyInt 90) (PyInt 100))
    (fun confidence_decimal =>
       rbind (calculate_rice_score (PyInt 0) (PyInt 2) confidence_decimal
                (PyFloat 3))
         py_round2)
  = Ok (PyFloat 0).
Proof.
  assert (Hv : valid_inputs (Widgets "Rolf" "Idea" 0 (PyInt 2) 90 3 true false)).
  { repeat split; try reflexivity; try (simpl; lia).
    unfold impact_options. simpl.
    do 3 apply list_elem_of_further. apply list_elem_of_here. }
  exact (zero_reach_or_confidence
           (Widgets "Rolf" "Idea" 0 (PyInt 2) 90 3 true false) Hv
           (or_introl eq_refl)).
Defined.
